(** * DS3231 real-time-clock driver (ds3231.py): model and verified properties

    The driver is a MicroPython class that talks to the clock chip through
    an I2C handle.  Python integers are unbounded, so they are [Z] here;
    [//] and [%] are the floor division and modulus of [Z.div] and
    [Z.modulo]; [&], [|], [~], [<<], [>>] are [Z.land], [Z.lor], [Z.lnot],
    [Z.shiftl], [Z.shiftr] (two's complement on negative numbers, as in
    Python).  The methods mutate the object's scratch buffers and the chip's
    registers, so they are written in a state-and-exception monad over one
    record that holds the buffers, the register file behind the bus, the
    list of bus transactions and the console. *)

From Stdlib Require Import ZArith List Bool Ascii String Lia.
Import ListNotations.
Open Scope Z_scope.

(** ** Register addresses *)

Definition DATETIME_REG    : Z := 0.
Definition ALARM1_REG      : Z := 7.
Definition ALARM2_REG      : Z := 11.
Definition CONTROL_REG     : Z := 14.
Definition STATUS_REG      : Z := 15.
Definition AGING_REG       : Z := 16.
Definition TEMPERATURE_REG : Z := 17.

(** ** BCD helpers *)

Definition dectobcd (decimal : Z) : Z :=
  let tens := decimal / 10 in
  let ones := decimal mod 10 in
  Z.lor (Z.shiftl tens 4) ones.

Definition bcdtodec (bcd : Z) : Z :=
  let tens := Z.land (Z.shiftr bcd 4) 0x0F in
  let ones := Z.land bcd 0x0F in
  tens * 10 + ones.

(** ** Class constants *)

Definition FREQ_1    : Z := 1.
Definition FREQ_1024 : Z := 2.
Definition FREQ_4096 : Z := 3.
Definition FREQ_8192 : Z := 4.
Definition SQW_32K   : Z := 1.

Definition AL1_EVERY_S    : Z := 15.
Definition AL1_MATCH_S    : Z := 14.
Definition AL1_MATCH_MS   : Z := 12.
Definition AL1_MATCH_DHMS : Z := 0.

Definition AL2_EVERY_M   : Z := 7.
Definition AL2_MATCH_M   : Z := 6.
Definition AL2_MATCH_HM  : Z := 4.

(** ** Python built-ins used by the driver *)

(** A [bytearray] cell holds 0..255.  The driver runs on MicroPython, whose
    item store and [bytearray(...)] constructor keep the low eight bits of
    the integer they are given (no range check). *)
Definition byte_of (v : Z) : Z := v mod 256.

Definition is_byte (v : Z) : Prop := 0 <= v < 256.

(** [buf[i] = v] for an index inside the buffer. *)
Fixpoint store (buf : list Z) (i : nat) (v : Z) : list Z :=
  match buf, i with
  | [], _ => []
  | _ :: r, O => byte_of v :: r
  | b :: r, S j => b :: store r j v
  end.

(** [bytearray([v1, ..., vn])] *)
Definition bytearray (l : list Z) : list Z := map byte_of l.

(** [str(n)] for an integer: decimal digits, a leading minus sign for a
    negative number.  The fuel bounds the number of digits. *)
Definition digit_char (d : Z) : ascii := ascii_of_nat (48 + Z.to_nat d).

Fixpoint str_digits (fuel : nat) (n : Z) (acc : list ascii) : list ascii :=
  match fuel with
  | O => acc
  | S f =>
      let acc' := digit_char (n mod 10) :: acc in
      if n <? 10 then acc' else str_digits f (n / 10) acc'
  end.

Definition str_nat (n : Z) : list ascii :=
  str_digits (S (Z.to_nat (Z.log2 n))) n [].

Definition str (n : Z) : list ascii :=
  if n <? 0 then "-"%char :: str_nat (- n) else str_nat n.

(** [s[-2:]]: the last two characters, the whole string when it is shorter. *)
Definition last2 {A : Type} (s : list A) : list A :=
  skipn (List.length s - 2)%nat s.

(** [int(s)] on the strings the driver can build: an optional sign and at
    least one decimal digit; anything else is a [ValueError]. *)
Definition digit_val (c : ascii) : option Z :=
  let n := nat_of_ascii c in
  if (48 <=? n)%nat && (n <=? 57)%nat then Some (Z.of_nat (n - 48)) else None.

Fixpoint int_digits (acc : Z) (s : list ascii) : option Z :=
  match s with
  | [] => Some acc
  | c :: r =>
      match digit_val c with
      | Some d => int_digits (10 * acc + d) r
      | None => None
      end
  end.

Definition int_unsigned (s : list ascii) : option Z :=
  match s with
  | [] => None
  | _ => int_digits 0 s
  end.

Definition int (s : list ascii) : option Z :=
  match s with
  | "-"%char :: r => option_map Z.opp (int_unsigned r)
  | "+"%char :: r => int_unsigned r
  | _ => int_unsigned s
  end.

(** ** The object, the chip behind the bus, and the monad *)

(** One transaction on the I2C bus: the chip address, the first register
    and the number of bytes read or the bytes written. *)
Inductive bus_op : Type :=
  | BusRead (dev reg : Z) (n : nat)
  | BusWrite (dev reg : Z) (data : list Z).

(** [regs] is the register file of the chip (an idealized transport: a read
    returns what was last written); [traffic] lists the transactions,
    oldest first; [addr] and the four buffers are the fields that
    [__init__] creates; [console] collects what [print] emits. *)
Record state : Type := mkState {
  regs     : Z -> Z;
  traffic  : list bus_op;
  addr     : Z;
  _timebuf : list Z;
  _buf     : list Z;
  _al1_buf : list Z;
  _al2buf  : list Z;
  console  : list string
}.

Definition set_regs (f : Z -> Z) (s : state) : state :=
  mkState f (traffic s) (addr s) (_timebuf s) (_buf s) (_al1_buf s) (_al2buf s) (console s).
Definition set_traffic (t : list bus_op) (s : state) : state :=
  mkState (regs s) t (addr s) (_timebuf s) (_buf s) (_al1_buf s) (_al2buf s) (console s).
Definition set_timebuf (b : list Z) (s : state) : state :=
  mkState (regs s) (traffic s) (addr s) b (_buf s) (_al1_buf s) (_al2buf s) (console s).
Definition set_buf (b : list Z) (s : state) : state :=
  mkState (regs s) (traffic s) (addr s) (_timebuf s) b (_al1_buf s) (_al2buf s) (console s).
Definition set_al1_buf (b : list Z) (s : state) : state :=
  mkState (regs s) (traffic s) (addr s) (_timebuf s) (_buf s) b (_al2buf s) (console s).
Definition set_al2buf (b : list Z) (s : state) : state :=
  mkState (regs s) (traffic s) (addr s) (_timebuf s) (_buf s) (_al1_buf s) b (console s).
Definition set_console (c : list string) (s : state) : state :=
  mkState (regs s) (traffic s) (addr s) (_timebuf s) (_buf s) (_al1_buf s) (_al2buf s) c.

(** [DS3231(i2c, addr)]: the buffers are zero-filled bytearrays of 7, 1, 4
    and 3 bytes. *)
Definition __init__ (chip : Z -> Z) (a : Z) : state :=
  mkState chip [] a (repeat 0 7) (repeat 0 1) (repeat 0 4) (repeat 0 3) [].

(** The buffers keep the sizes [__init__] gave them. *)
Definition wf (s : state) : Prop :=
  List.length (_timebuf s) = 7%nat /\ List.length (_buf s) = 1%nat /\
  List.length (_al1_buf s) = 4%nat /\ List.length (_al2buf s) = 3%nat.

Inductive exn : Type := IndexError | ValueError.

Inductive outcome (A : Type) : Type :=
  | Ok (a : A)
  | Raise (e : exn).
Arguments Ok {A} a.
Arguments Raise {A} e.

Definition M (A : Type) : Type := state -> outcome A * state.

Definition ret {A} (a : A) : M A := fun s => (Ok a, s).
Definition raise {A} (e : exn) : M A := fun s => (Raise e, s).
Definition bind {A B} (m : M A) (k : A -> M B) : M B :=
  fun s => match m s with
           | (Ok a, s1) => k a s1
           | (Raise e, s1) => (Raise e, s1)
           end.
Definition get {A} (f : state -> A) : M A := fun s => (Ok (f s), s).
Definition modify (f : state -> state) : M unit := fun s => (Ok tt, f s).

Notation "x <- m ;; k" := (bind m (fun x => k))
  (at level 61, m at next level, right associativity).
Notation "m ;;; k" := (bind m (fun _ => k))
  (at level 61, right associativity).

(** [try: body except IndexError: handler] *)
Definition try_IndexError {A} (body handler : M A) : M A :=
  fun s => match body s with
           | (Raise IndexError, s1) => handler s1
           | r => r
           end.

(** [t[i]] on a tuple, for a constant index [i >= 0]. *)
Definition index (t : list Z) (i : nat) : M Z :=
  match nth_error t i with
  | Some v => ret v
  | None => raise IndexError
  end.

Definition of_option {A} (e : exn) (o : option A) : M A :=
  match o with
  | Some a => ret a
  | None => raise e
  end.

(** ** The I2C handle *)

Fixpoint read_block (m : Z -> Z) (reg : Z) (n : nat) : list Z :=
  match n with
  | O => []
  | S k => m reg :: read_block m (reg + 1) k
  end.

Fixpoint write_block (m : Z -> Z) (reg : Z) (data : list Z) : Z -> Z :=
  match data with
  | [] => m
  | b :: r => write_block (fun a => if a =? reg then b else m a) (reg + 1) r
  end.

Definition log (op : bus_op) : M unit :=
  modify (fun s => set_traffic (traffic s ++ [op]) s).

(** [i2c.readfrom_mem(addr, reg, n)] *)
Definition readfrom_mem (reg : Z) (n : nat) : M (list Z) :=
  a <- get addr ;;
  log (BusRead a reg n) ;;;
  m <- get regs ;;
  ret (read_block m reg n).

(** [i2c.readfrom_mem_into(addr, reg, buf)]: fills the whole of [buf]. *)
Definition readfrom_mem_into (reg : Z) (buf : state -> list Z)
    (set : list Z -> state -> state) : M unit :=
  b <- get buf ;;
  data <- readfrom_mem reg (List.length b) ;;
  modify (set data).

(** [i2c.writeto_mem(addr, reg, data)] *)
Definition writeto_mem (reg : Z) (data : list Z) : M unit :=
  a <- get addr ;;
  log (BusWrite a reg data) ;;;
  modify (fun s => set_regs (write_block (regs s) reg data) s).

(** [print(msg)] *)
Definition print (msg : string) : M unit :=
  modify (fun s => set_console (console s ++ [msg]) s).

(** [buf[i]] on a bytearray, for an index inside the buffer. *)
Definition item (buf : list Z) (i : nat) : Z := nth i buf 0.

(** ** The methods of class DS3231 *)

(** What a method hands back: [True]/[False], an integer, a tuple of
    integers, or a bytes-like object. *)
Inductive value : Type :=
  | VBool (b : bool)
  | VInt (n : Z)
  | VTuple (t : list Z)
  | VBytes (b : list Z).

(** Truth value of an integer in a condition ([False] is 0, [True] is 1). *)
Definition truthy (n : Z) : bool := negb (n =? 0).

(** [self._timebuf[i] = v] and its siblings. *)
Definition timebuf_store (i : nat) (v : Z) : M unit :=
  modify (fun s => set_timebuf (store (_timebuf s) i v) s).
Definition al1_buf_store (i : nat) (v : Z) : M unit :=
  modify (fun s => set_al1_buf (store (_al1_buf s) i v) s).
Definition al2buf_store (i : nat) (v : Z) : M unit :=
  modify (fun s => set_al2buf (store (_al2buf s) i v) s).

Definition OSF : M bool :=
  b <- readfrom_mem STATUS_REG 1 ;;
  ret (truthy (Z.land (item b 0) 0x80)).

Definition _OSF_reset : M unit :=
  readfrom_mem_into STATUS_REG _buf set_buf ;;;
  b <- get _buf ;;
  let cleared := Z.land (item b 0) 0x7F in
  writeto_mem STATUS_REG (bytearray [cleared]).

Definition _is_busy : M bool :=
  b <- readfrom_mem STATUS_REG 1 ;;
  ret (truthy (Z.land (item b 0) (Z.shiftl 1 2))).

(** The hour decoding of the read path (lines 141-149). *)
Definition decode_hour (hr_reg : Z) : Z :=
  if truthy (Z.land hr_reg 0x40) then
    let hour := bcdtodec (Z.land hr_reg 0x1F) in
    if truthy (Z.land hr_reg 0x20) then hour + 12 else hour
  else
    bcdtodec (Z.land hr_reg 0x3F).

Definition osf_warning : string :=
  "WARNING: Oscillator stop flag set. Time may not be accurate.".

Definition datetime (datetime : option (list Z)) : M value :=
  match datetime with
  | None =>
      readfrom_mem_into DATETIME_REG _timebuf set_timebuf ;;;
      tb <- get _timebuf ;;
      let seconds := bcdtodec (item tb 0) in
      let minutes := bcdtodec (item tb 1) in
      let hour := decode_hour (item tb 2) in
      let weekday := bcdtodec (item tb 3) in
      let day := bcdtodec (item tb 4) in
      let month := bcdtodec (Z.land (item tb 5) 0x7F) in
      let year := bcdtodec (item tb 6) + 2000 in
      stopped <- OSF ;;
      (if stopped then print osf_warning else ret tt) ;;;
      ret (VTuple [year; month; day; weekday; hour; minutes; seconds; 0])
  | Some datetime =>
      try_IndexError
        (v <- index datetime 6 ;; timebuf_store 3 (dectobcd v))
        (timebuf_store 3 0) ;;;
      try_IndexError
        (v <- index datetime 5 ;; timebuf_store 0 (dectobcd v))
        (timebuf_store 0 0) ;;;
      (v <- index datetime 4 ;; timebuf_store 1 (dectobcd v)) ;;;
      (v <- index datetime 3 ;; timebuf_store 2 (dectobcd v)) ;;;
      (v <- index datetime 2 ;; timebuf_store 4 (dectobcd v)) ;;;
      (v <- index datetime 1 ;; timebuf_store 5 (Z.land (dectobcd v) 0xFF)) ;;;
      (v <- index datetime 0 ;;
       yy <- of_option ValueError (int (last2 (str v))) ;;
       timebuf_store 6 (dectobcd yy)) ;;;
      tb <- get _timebuf ;;
      writeto_mem DATETIME_REG tb ;;;
      _OSF_reset ;;;
      ret (VBool true)
  end.

Definition square_wave (freq : option Z) : M value :=
  match freq with
  | None =>
      b <- readfrom_mem CONTROL_REG 1 ;;
      ret (VInt (item b 0))
  | Some freq =>
      readfrom_mem_into CONTROL_REG _buf set_buf ;;;
      b <- get _buf ;;
      let ctrl := item b 0 in
      let new :=
        if negb (truthy freq) then Z.lor (Z.land ctrl 0xF8) 0x04
        else Z.lor (Z.land ctrl 0xE3) (Z.shiftl (freq - 1) 3) in
      writeto_mem CONTROL_REG (bytearray [new]) ;;;
      ret (VBool true)
  end.

Definition alarm_int (enable : bool) (alarm : Z) : M (list Z) :=
  (if (alarm =? 0) || (alarm =? 1) then
     readfrom_mem_into CONTROL_REG _buf set_buf ;;;
     b <- get _buf ;;
     let ctrl := item b 0 in
     let new :=
       if enable then Z.lor (Z.land ctrl 0xFA) 0x05
       else Z.land ctrl 0xFD in
     writeto_mem CONTROL_REG (bytearray [new])
   else ret tt) ;;;
  (if (alarm =? 0) || (alarm =? 2) then
     readfrom_mem_into CONTROL_REG _buf set_buf ;;;
     b <- get _buf ;;
     let ctrl := item b 0 in
     let new :=
       if enable then Z.lor (Z.land ctrl 0xF9) 0x06
       else Z.land ctrl 0xFB in
     writeto_mem CONTROL_REG (bytearray [new])
   else ret tt) ;;;
  readfrom_mem CONTROL_REG 1.

Definition check_alarm (alarm : Z) : M bool :=
  readfrom_mem_into STATUS_REG _buf set_buf ;;;
  b <- get _buf ;;
  let status := item b 0 in
  if negb (truthy (Z.land status alarm)) then ret false
  else
    writeto_mem STATUS_REG (bytearray [Z.land status (Z.lnot alarm)]) ;;;
    ret true.

Definition output_32kHz (enable : bool) : M unit :=
  b <- readfrom_mem STATUS_REG 1 ;;
  let current := item b 0 in
  let new :=
    if enable then Z.lor current (Z.shiftl 1 3)
    else Z.land current (Z.lnot (Z.shiftl 1 3)) in
  writeto_mem STATUS_REG (bytearray [new]).

(** The [time] argument of the alarm methods: one integer or a tuple. *)
Inductive alarm_time : Type :=
  | TimeInt (n : Z)
  | TimeTuple (t : list Z).

Definition as_tuple (time : alarm_time) : list Z :=
  match time with
  | TimeInt n => [n]
  | TimeTuple t => t
  end.

(** [len(time) > i] *)
Definition longer (time : list Z) (i : nat) : bool :=
  (i <? List.length time)%nat.

Definition alarm1 (time : option alarm_time) (match_ : Z)
    (int_en weekday : bool) : M (list Z) :=
  match time with
  | None =>
      readfrom_mem_into ALARM1_REG _al1_buf set_al1_buf ;;;
      get _al1_buf
  | Some time =>
      let time := as_tuple time in
      let a1m1 := Z.shiftl (Z.land match_ 0x01) 7 in
      let a1m2 := Z.shiftl (Z.land match_ 0x02) 6 in
      let a1m3 := Z.shiftl (Z.land match_ 0x04) 5 in
      let a1m4 := Z.shiftl (Z.land match_ 0x08) 4 in
      let dydt := if weekday then Z.shiftl 1 6 else 0 in
      (v <- index time 0 ;; al1_buf_store 0 (Z.lor (dectobcd v) a1m1)) ;;;
      (if longer time 1
       then v <- index time 1 ;; al1_buf_store 1 (Z.lor (dectobcd v) a1m2)
       else al1_buf_store 1 a1m2) ;;;
      (if longer time 2
       then v <- index time 2 ;; al1_buf_store 2 (Z.lor (dectobcd v) a1m3)
       else al1_buf_store 2 a1m3) ;;;
      (if longer time 3
       then v <- index time 3 ;;
            al1_buf_store 3 (Z.lor (Z.lor (dectobcd v) a1m4) dydt)
       else al1_buf_store 3 (Z.lor a1m4 dydt)) ;;;
      b <- get _al1_buf ;;
      writeto_mem ALARM1_REG b ;;;
      alarm_int int_en 1 ;;;
      check_alarm 1 ;;;
      get _al1_buf
  end.

Definition alarm2 (time : option alarm_time) (match_ : Z)
    (int_en weekday : bool) : M (list Z) :=
  match time with
  | None =>
      readfrom_mem_into ALARM2_REG _al2buf set_al2buf ;;;
      get _al2buf
  | Some time =>
      let time := as_tuple time in
      let a2m2 := Z.shiftl (Z.land match_ 0x01) 7 in
      let a2m3 := Z.shiftl (Z.land match_ 0x02) 6 in
      let a2m4 := Z.shiftl (Z.land match_ 0x04) 5 in
      let dydt := if weekday then Z.shiftl 1 6 else 0 in
      (if longer time 0
       then v <- index time 0 ;; al2buf_store 0 (Z.lor (dectobcd v) a2m2)
       else al2buf_store 0 a2m2) ;;;
      (if longer time 1
       then v <- index time 1 ;; al2buf_store 1 (Z.lor (dectobcd v) a2m3)
       else al2buf_store 1 a2m3) ;;;
      (if longer time 2
       then v <- index time 2 ;;
            al2buf_store 2 (Z.lor (Z.lor (dectobcd v) a2m4) dydt)
       else al2buf_store 2 (Z.lor a2m4 dydt)) ;;;
      b <- get _al2buf ;;
      writeto_mem ALARM2_REG b ;;;
      alarm_int int_en 2 ;;;
      check_alarm 2 ;;;
      get _al2buf
  end.

(** ** Checking a property on an initial segment of the integers *)

(** [all_below n p]: [p] holds of 0, 1, ..., n-1. *)
Fixpoint all_below (n : nat) (p : Z -> bool) : bool :=
  match n with
  | O => true
  | S k => p (Z.of_nat k) && all_below k p
  end.

(** ** Concrete chips *)

(** A register file given by its image from register 0 upwards; registers
    past the image read 0. *)
Definition chip_of (image : list Z) : Z -> Z :=
  fun r => if r <? 0 then 0 else nth (Z.to_nat r) image 0.

(** A chip whose 19 registers are all 0 except the control and status
    registers. *)
Definition chip_ctrl_status (ctrl status : Z) : Z -> Z :=
  chip_of (repeat 0 14 ++ [ctrl; status; 0; 0; 0]).

(** A chip in 12-hour mode showing 12:30:00 PM on Thursday 15 June 2023:
    the hour register 0x72 has the 12-hour bit, the PM bit and BCD hour 12. *)
Definition chip_noon : Z -> Z :=
  chip_of [0x00; 0x30; 0x72; 0x04; 0x15; 0x06; 0x23;
           0; 0; 0; 0; 0; 0; 0; 0; 0; 0; 0; 0].

(** A chip whose time registers 0-6 hold [time], with the given control and
    status bytes and 0 elsewhere. *)
Definition chip_time (time : list Z) (ctrl status : Z) : Z -> Z :=
  chip_of (firstn 7 (time ++ repeat 0 7) ++ repeat 0 7 ++ [ctrl; status; 0; 0; 0]).

(** ** Predicates used in the statements *)

(** A bus transaction that only reads. *)
Definition is_read (op : bus_op) : bool :=
  match op with
  | BusRead _ _ _ => true
  | BusWrite _ _ _ => false
  end.

(** A byte whose two nibbles are decimal digits. *)
Definition is_bcd (b : Z) : bool :=
  (Z.shiftr b 4 <=? 9) && (Z.land b 0x0F <=? 9).

(** A character that [int] reads as a decimal digit. *)
Definition is_digit (c : ascii) : Prop := exists d, digit_val c = Some d.

(** * Properties *)

(** ** Finite case analysis *)

Lemma all_below_spec (n : nat) (p : Z -> bool) :
  all_below n p = true -> forall z, 0 <= z < Z.of_nat n -> p z = true.
Proof.
  induction n as [|n IH]; simpl; intros H z Hz.
  - lia.
  - apply andb_prop in H. destruct H as [Hn Hrest].
    destruct (Z.eq_dec z (Z.of_nat n)) as [->|Hne]; [exact Hn|].
    apply IH; [exact Hrest | lia].
Qed.

Lemma byte_cases (p : Z -> bool) :
  all_below 256 p = true -> forall b, is_byte b -> p b = true.
Proof.
  intros H b Hb. apply (all_below_spec 256 p H). exact Hb.
Qed.

Lemma is_byte_intro (v : Z) : (0 <=? v) && (v <? 256) = true -> is_byte v.
Proof. unfold is_byte. lia. Qed.

(** ** BCD *)

Lemma dectobcd_digits (n : Z) :
  0 <= n <= 99 ->
  Z.shiftr (dectobcd n) 4 = n / 10 /\ Z.land (dectobcd n) 0x0F = n mod 10.
Proof.
  intros Hn.
  pose proof (all_below_spec 100
    (fun n => (Z.shiftr (dectobcd n) 4 =? n / 10) &&
              (Z.land (dectobcd n) 0x0F =? n mod 10))) as H.
  specialize (H ltac:(vm_compute; reflexivity) n ltac:(lia)).
  cbv beta in H. apply andb_prop in H. destruct H as [H1 H2].
  split; apply Z.eqb_eq; assumption.
Qed.

(** C8. BCD round trip: for every integer [n] with [0 <= n <= 99],
    [bcdtodec (dectobcd n) = n]; the encoding has the tens digit [n / 10]
    in the high nibble and the ones digit [n mod 10] in the low nibble. *)
Theorem bcd_roundtrip (n : Z) :
  0 <= n <= 99 ->
  bcdtodec (dectobcd n) = n /\
  Z.shiftr (dectobcd n) 4 = n / 10 /\
  Z.land (dectobcd n) 0x0F = n mod 10.
Proof.
  intros Hn. destruct (dectobcd_digits n Hn) as [Hhi Hlo].
  split; [|split; assumption].
  unfold bcdtodec. cbv zeta. rewrite Hlo, Hhi.
  assert (Ht : 0 <= n / 10 < 16).
  { split; [apply Z.div_pos; lia | apply Z.div_lt_upper_bound; lia]. }
  change 0x0F with (Z.ones 4). rewrite Z.land_ones by lia.
  rewrite Z.mod_small by (simpl; lia).
  pose proof (Z.div_mod n 10). lia.
Qed.

Lemma bcd_roundtrip_witness :
  0 <= 45 <= 99 /\ bcdtodec (dectobcd 45) = 45 /\ dectobcd 45 = 0x45.
Proof.
  split; [lia|]. split; [apply (bcd_roundtrip 45); lia | reflexivity].
Defined.

(** ** Symbolic execution of a method on a well-formed object *)

Ltac sized l H :=
  repeat (is_var l; destruct l as [|? l]; simpl in H; try discriminate H).

(** Splits the object into its fields and the buffers into their cells. *)
Ltac open_state s Hwf :=
  let rg := fresh "rg" in let tr := fresh "tr" in let ad := fresh "ad" in
  let tb := fresh "tb" in let b := fresh "b" in
  let a1 := fresh "a1" in let a2 := fresh "a2" in let con := fresh "con" in
  let Ht := fresh "Ht" in let Hb := fresh "Hb" in
  let H1 := fresh "H1" in let H2 := fresh "H2" in
  destruct s as [rg tr ad tb b a1 a2 con];
  destruct Hwf as (Ht & Hb & H1 & H2);
  simpl in Ht, Hb, H1, H2;
  sized tb Ht; sized b Hb; sized a1 H1; sized a2 H2;
  clear Ht Hb H1 H2.

(** Runs the monadic code, leaving the arithmetic on bytes folded. *)
Ltac run :=
  cbn -[Z.testbit Z.setbit Z.clearbit Z.land Z.lor Z.lnot Z.shiftl Z.shiftr
        Z.modulo Z.div byte_of dectobcd bcdtodec decode_hour str last2 int].
Tactic Notation "run" "in" hyp(H) :=
  cbn -[Z.testbit Z.setbit Z.clearbit Z.land Z.lor Z.lnot Z.shiftl Z.shiftr
        Z.modulo Z.div byte_of dectobcd bcdtodec decode_hour str last2 int]
    in H.

Lemma init_wf (chip : Z -> Z) (a : Z) : wf (__init__ chip a).
Proof. repeat split. Qed.

(** ** Alarm flags in the status register *)

(** On a status byte, the test [status & alarm] reads bit [alarm - 1], and
    [status & ~alarm] clears that bit and nothing else. *)
Lemma status_flag_byte (st alarm : Z) :
  is_byte st -> alarm = 1 \/ alarm = 2 ->
  truthy (Z.land st alarm) = Z.testbit st (alarm - 1) /\
  byte_of (Z.land st (Z.lnot alarm)) = Z.clearbit st (alarm - 1) /\
  is_byte (Z.clearbit st (alarm - 1)).
Proof.
  intros Hst Halarm.
  pose proof (byte_cases
    (fun st => forallb (fun alarm =>
       Bool.eqb (truthy (Z.land st alarm)) (Z.testbit st (alarm - 1)) &&
       (byte_of (Z.land st (Z.lnot alarm)) =? Z.clearbit st (alarm - 1)) &&
       (0 <=? Z.clearbit st (alarm - 1)) &&
       (Z.clearbit st (alarm - 1) <? 256)) [1; 2])) as H.
  specialize (H ltac:(vm_compute; reflexivity) st Hst). cbv beta in H.
  rewrite forallb_forall in H.
  assert (Hin : In alarm [1; 2]) by (simpl; destruct Halarm; auto).
  specialize (H alarm Hin).
  repeat (apply andb_prop in H; destruct H as [H ?]).
  apply Bool.eqb_prop in H. unfold is_byte.
  repeat split; [assumption | apply Z.eqb_eq; assumption | lia | lia].
Qed.

(** C6. [check_alarm]: for every status byte and [alarm] in {1, 2}: when the
    alarm's pending bit (bit [alarm - 1]) is set, the call reads the status
    register, writes it back with exactly that one bit cleared, every other
    bit as it was, and returns [True], and a second call right after it
    returns [False] after a read alone; when the bit is clear, the call
    returns [False] and the only bus transaction is the read. *)
Theorem check_alarm_spec (s : state) (alarm : Z) :
  wf s -> is_byte (regs s STATUS_REG) -> alarm = 1 \/ alarm = 2 ->
  let status := regs s STATUS_REG in
  let r := check_alarm alarm s in
  if Z.testbit status (alarm - 1) then
    exists w,
      fst r = Ok true /\
      traffic (snd r) =
        traffic s ++ [BusRead (addr s) STATUS_REG 1;
                      BusWrite (addr s) STATUS_REG [w]] /\
      regs (snd r) STATUS_REG = w /\
      Z.testbit w (alarm - 1) = false /\
      (forall i, i <> alarm - 1 -> Z.testbit w i = Z.testbit status i) /\
      let r2 := check_alarm alarm (snd r) in
      fst r2 = Ok false /\
      traffic (snd r2) = traffic (snd r) ++ [BusRead (addr s) STATUS_REG 1]
  else
    fst r = Ok false /\
    traffic (snd r) = traffic s ++ [BusRead (addr s) STATUS_REG 1] /\
    regs (snd r) = regs s.
Proof.
  intros Hwf Hst Halarm. open_state s Hwf. cbn in Hst |- *.
  destruct (status_flag_byte _ _ Hst Halarm) as (Htest & Hclear & Hbyte).
  destruct (status_flag_byte _ _ Hbyte Halarm) as (Htest2 & _ & _).
  rewrite Z.clearbit_eq in Htest2.
  change (rg 15) with (rg STATUS_REG).
  rewrite Htest.
  destruct (Z.testbit (rg STATUS_REG) (alarm - 1)) eqn:Hbit; cbn.
  - exists (Z.clearbit (rg STATUS_REG) (alarm - 1)).
    rewrite Hclear, Htest2. cbn. rewrite <- app_assoc.
    repeat split.
    + apply Z.clearbit_eq.
    + intros i Hi. apply Z.clearbit_neq. congruence.
  - repeat split.
Qed.

Lemma check_alarm_spec_witness :
  let s := __init__ (chip_ctrl_status 0 0x03) 0x68 in
  wf s /\ is_byte (regs s STATUS_REG) /\ (1 = 1 \/ 1 = 2) /\
  fst (check_alarm 1 s) = Ok true /\
  regs (snd (check_alarm 1 s)) STATUS_REG = 0x02.
Proof.
  cbv zeta.
  assert (Hwf : wf (__init__ (chip_ctrl_status 0 0x03) 0x68)) by apply init_wf.
  assert (Hb : is_byte (regs (__init__ (chip_ctrl_status 0 0x03) 0x68) STATUS_REG))
    by (apply is_byte_intro; reflexivity).
  pose proof (check_alarm_spec _ 1 Hwf Hb (or_introl eq_refl)) as H.
  simpl in H. destruct H as (w & Hr & _).
  split; [exact Hwf|]. split; [exact Hb|]. split; [left; reflexivity|].
  split; [exact Hr | reflexivity].
Defined.

(** ** The control register *)

(** The masks of [square_wave] and [alarm_int] on a control byte, as bits
    set and cleared. *)
Lemma control_byte_ops (ctrl : Z) :
  is_byte ctrl ->
  byte_of (Z.lor (Z.land ctrl 0xF8) 0x04)
    = Z.setbit (Z.clearbit (Z.clearbit ctrl 0) 1) 2 /\
  byte_of (Z.lor (Z.land ctrl 0xFA) 0x05) = Z.setbit (Z.setbit ctrl 0) 2 /\
  byte_of (Z.lor (Z.land ctrl 0xF9) 0x06) = Z.setbit (Z.setbit ctrl 1) 2 /\
  byte_of (Z.land ctrl 0xFD) = Z.clearbit ctrl 1 /\
  byte_of (Z.land ctrl 0xFB) = Z.clearbit ctrl 2.
Proof.
  intros Hc.
  pose proof (byte_cases
    (fun c =>
       (byte_of (Z.lor (Z.land c 0xF8) 0x04)
          =? Z.setbit (Z.clearbit (Z.clearbit c 0) 1) 2) &&
       (byte_of (Z.lor (Z.land c 0xFA) 0x05) =? Z.setbit (Z.setbit c 0) 2) &&
       (byte_of (Z.lor (Z.land c 0xF9) 0x06) =? Z.setbit (Z.setbit c 1) 2) &&
       (byte_of (Z.land c 0xFD) =? Z.clearbit c 1) &&
       (byte_of (Z.land c 0xFB) =? Z.clearbit c 2))) as H.
  specialize (H ltac:(vm_compute; reflexivity) ctrl Hc). cbv beta in H.
  repeat (apply andb_prop in H; destruct H as [H ?]).
  repeat split; apply Z.eqb_eq; assumption.
Qed.

(** C2, as the code has it.  [square_wave(freq=False)] reads the control
    byte and writes back a byte in which bit 2 (INTCN) is 1, bits 0 and 1
    (the two alarm interrupt enables) are 0, and every other bit, the
    frequency-select bits 3 and 4 among them, is as it was; it returns
    [True]. *)
Theorem square_wave_disable_spec (s : state) :
  wf s -> is_byte (regs s CONTROL_REG) ->
  let ctrl := regs s CONTROL_REG in
  let r := square_wave (Some 0) s in
  exists new,
    fst r = Ok (VBool true) /\
    traffic (snd r) =
      traffic s ++ [BusRead (addr s) CONTROL_REG 1;
                    BusWrite (addr s) CONTROL_REG [new]] /\
    regs (snd r) CONTROL_REG = new /\
    Z.testbit new 2 = true /\
    Z.testbit new 0 = false /\ Z.testbit new 1 = false /\
    (forall i, i <> 0 -> i <> 1 -> i <> 2 ->
               Z.testbit new i = Z.testbit ctrl i).
Proof.
  intros Hwf Hc. open_state s Hwf. run in Hc. run.
  destruct (control_byte_ops _ Hc) as (Hoff & _).
  exists (Z.setbit (Z.clearbit (Z.clearbit (rg CONTROL_REG) 0) 1) 2).
  change (rg 14) with (rg CONTROL_REG).
  rewrite Hoff, <- app_assoc. run.
  repeat split.
  - apply Z.setbit_eq. lia.
  - rewrite Z.setbit_neq, Z.clearbit_neq by lia. apply Z.clearbit_eq.
  - rewrite Z.setbit_neq by lia. apply Z.clearbit_eq.
  - intros i H0 H1 H2.
    rewrite Z.setbit_neq, !Z.clearbit_neq by lia. reflexivity.
Qed.

Lemma square_wave_disable_spec_witness :
  let s := __init__ (chip_ctrl_status 0x1B 0) 0x68 in
  wf s /\ is_byte (regs s CONTROL_REG) /\
  fst (square_wave (Some 0) s) = Ok (VBool true) /\
  regs (snd (square_wave (Some 0) s)) CONTROL_REG = 0x1C.
Proof.
  cbv zeta.
  assert (Hwf : wf (__init__ (chip_ctrl_status 0x1B 0) 0x68)) by apply init_wf.
  assert (Hb : is_byte (regs (__init__ (chip_ctrl_status 0x1B 0) 0x68) CONTROL_REG))
    by (apply is_byte_intro; reflexivity).
  pose proof (square_wave_disable_spec _ Hwf Hb) as H.
  simpl in H. destruct H as (new & Hr & _).
  split; [exact Hwf|]. split; [exact Hb|].
  split; [exact Hr | reflexivity].
Defined.

(** C2 with the frequency-select bits cleared and the alarm enables kept
    does not hold.  With the control byte 0x1B (both
    alarm enables and both frequency-select bits set) the byte written is
    0x1C: the frequency-select bits 3 and 4 are still 1, and the alarm enable
    bits 0 and 1 have changed. *)
Lemma square_wave_disable_counterexample :
  ~ (let s := __init__ (chip_ctrl_status 0x1B 0) 0x68 in
     let ctrl := regs s CONTROL_REG in
     let new := regs (snd (square_wave (Some 0) s)) CONTROL_REG in
     Z.testbit new 2 = true /\
     Z.testbit new 3 = false /\ Z.testbit new 4 = false /\
     forall i, i <> 2 -> i <> 3 -> i <> 4 ->
               Z.testbit new i = Z.testbit ctrl i).
Proof.
  cbv zeta. intros (_ & H3 & _). vm_compute in H3. discriminate H3.
Qed.

(** C3, as the code has it.  [alarm_int(enable=True, alarm=k)] for k = 1 or
    2 reads the control byte and writes back a byte in which alarm k's
    interrupt-enable bit (bit k-1) is 1 and bit 2 (INTCN) is 1, every other
    bit as it was; it returns the control register read back. *)
Theorem alarm_int_enable_spec (s : state) (alarm : Z) :
  wf s -> is_byte (regs s CONTROL_REG) -> alarm = 1 \/ alarm = 2 ->
  let ctrl := regs s CONTROL_REG in
  let r := alarm_int true alarm s in
  exists new,
    fst r = Ok [new] /\
    traffic (snd r) =
      traffic s ++ [BusRead (addr s) CONTROL_REG 1;
                    BusWrite (addr s) CONTROL_REG [new];
                    BusRead (addr s) CONTROL_REG 1] /\
    regs (snd r) CONTROL_REG = new /\
    Z.testbit new (alarm - 1) = true /\
    Z.testbit new 2 = true /\
    (forall i, i <> alarm - 1 -> i <> 2 ->
               Z.testbit new i = Z.testbit ctrl i).
Proof.
  intros Hwf Hc Halarm. open_state s Hwf. run in Hc.
  destruct (control_byte_ops _ Hc) as (_ & Hon1 & Hon2 & _).
  exists (Z.setbit (Z.setbit (rg CONTROL_REG) (alarm - 1)) 2).
  destruct Halarm as [-> | ->]; run; change (rg 14) with (rg CONTROL_REG);
    [rewrite Hon1 | rewrite Hon2]; rewrite <- !app_assoc; run;
    (repeat split;
     [ rewrite Z.setbit_neq by lia; apply Z.setbit_eq; lia
     | apply Z.setbit_eq; lia
     | intros i Hi H2; rewrite !Z.setbit_neq by lia; reflexivity ]).
Qed.

Lemma alarm_int_enable_spec_witness :
  let s := __init__ (chip_ctrl_status 0x18 0) 0x68 in
  wf s /\ is_byte (regs s CONTROL_REG) /\ (2 = 1 \/ 2 = 2) /\
  regs (snd (alarm_int true 2 s)) CONTROL_REG = 0x1E /\
  exists new,
    fst (alarm_int true 2 s) = Ok [new] /\
    Z.testbit new 1 = true /\ Z.testbit new 2 = true.
Proof.
  cbv zeta.
  assert (Hwf : wf (__init__ (chip_ctrl_status 0x18 0) 0x68)) by apply init_wf.
  assert (Hb : is_byte (regs (__init__ (chip_ctrl_status 0x18 0) 0x68) CONTROL_REG))
    by (apply is_byte_intro; reflexivity).
  pose proof (alarm_int_enable_spec _ 2 Hwf Hb (or_intror eq_refl)) as H.
  simpl in H. destruct H as (new & Hr & _ & _ & Hk & H2 & _).
  split; [exact Hwf|]. split; [exact Hb|]. split; [right; reflexivity|].
  split; [reflexivity|].
  exists new. split; [exact Hr | split; [exact Hk | exact H2]].
Defined.

(** C3 with INTCN cleared does not hold.  From the control byte 0x00,
    [alarm_int(enable=True, alarm=1)] writes 0x05: alarm 1's enable bit is 1
    but INTCN (bit 2) is 1, not 0. *)
Lemma alarm_int_enable_counterexample :
  ~ (let s := __init__ (chip_ctrl_status 0x00 0) 0x68 in
     let new := regs (snd (alarm_int true 1 s)) CONTROL_REG in
     Z.testbit new 0 = true /\ Z.testbit new 2 = false).
Proof.
  cbv zeta. intros (_ & H2). vm_compute in H2. discriminate H2.
Qed.

(** What [alarm_int(enable=False, alarm=k)] does on every control byte:
    it clears bit k, one position above the bit k-1 that enabling sets. *)
Lemma alarm_int_disable_run (s : state) (alarm : Z) :
  wf s -> is_byte (regs s CONTROL_REG) -> alarm = 1 \/ alarm = 2 ->
  regs (snd (alarm_int false alarm s)) CONTROL_REG
    = Z.clearbit (regs s CONTROL_REG) alarm.
Proof.
  intros Hwf Hc Halarm. open_state s Hwf. run in Hc.
  destruct (control_byte_ops _ Hc) as (_ & _ & _ & Hoff1 & Hoff2).
  destruct Halarm as [-> | ->]; run; change (rg 14) with (rg CONTROL_REG);
    [exact Hoff1 | exact Hoff2].
Qed.

(** C4 on a concrete chip.  With the control byte 0x07,
    [alarm_int(enable=False, alarm=1)] writes 0x05: bit 0, the bit that
    enabling alarm 1 sets, is still 1, and bit 1 (alarm 2's enable) is
    cleared instead; [alarm_int(enable=False, alarm=2)] writes 0x03: bit 1
    is still 1 and bit 2 (INTCN) is cleared instead.  So enabling alarm 1 on
    a zero control byte and disabling it again leaves its enable bit set. *)
Theorem alarm_int_disable_wrong_bit :
  let s := __init__ (chip_ctrl_status 0x07 0) 0x68 in
  traffic (snd (alarm_int false 1 s))
    = [BusRead 0x68 CONTROL_REG 1; BusWrite 0x68 CONTROL_REG [0x05];
       BusRead 0x68 CONTROL_REG 1] /\
  traffic (snd (alarm_int false 2 s))
    = [BusRead 0x68 CONTROL_REG 1; BusWrite 0x68 CONTROL_REG [0x03];
       BusRead 0x68 CONTROL_REG 1] /\
  let s0 := __init__ (chip_ctrl_status 0x00 0) 0x68 in
  let s1 := snd (alarm_int true 1 s0) in
  regs s1 CONTROL_REG = 0x05 /\
  fst (alarm_int false 1 s1) = Ok [0x05] /\
  Z.testbit (regs (snd (alarm_int false 1 s1)) CONTROL_REG) 0 = true.
Proof.
  cbv zeta. repeat split; reflexivity.
Qed.

(** ** Reading the time *)

(** C5 on a concrete chip.  In 12-hour mode the hour register 0x72 is
    12 PM; [datetime()] adds 12 to the BCD hour 12 and returns hour 24,
    outside 0-23. *)
Theorem datetime_noon_hour_24 :
  decode_hour 0x72 = 24 /\
  fst (datetime None (__init__ chip_noon 0x68))
    = Ok (VTuple [2023; 6; 15; 4; 24; 30; 0; 0]).
Proof.
  split; reflexivity.
Qed.

(** ** The two-digit year: [int(str(year)[-2:])] never fails *)

Lemma digit_char_is_digit (d : Z) : 0 <= d < 10 -> is_digit (digit_char d).
Proof.
  intros Hd. exists d.
  pose proof (all_below_spec 10
    (fun d => match digit_val (digit_char d) with
              | Some v => v =? d
              | None => false
              end)) as H.
  specialize (H ltac:(vm_compute; reflexivity) d Hd). cbv beta in H.
  destruct (digit_val (digit_char d)) as [v|]; [|discriminate].
  apply Z.eqb_eq in H. congruence.
Qed.

Lemma str_digits_digits (fuel : nat) :
  forall n acc, Forall is_digit acc -> Forall is_digit (str_digits fuel n acc).
Proof.
  induction fuel as [|f IH]; simpl; intros n acc Hacc; [exact Hacc|].
  assert (Hd : is_digit (digit_char (n mod 10))).
  { apply digit_char_is_digit. apply Z.mod_pos_bound. lia. }
  destruct (n <? 10); [|apply IH]; constructor; assumption.
Qed.

Lemma str_digits_length (fuel : nat) :
  forall n acc, (List.length acc <= List.length (str_digits fuel n acc))%nat.
Proof.
  induction fuel as [|f IH]; simpl; intros n acc; [lia|].
  destruct (n <? 10); simpl; [lia|].
  specialize (IH (n / 10) (digit_char (n mod 10) :: acc)). simpl in IH. lia.
Qed.

Lemma str_nat_shape (n : Z) :
  Forall is_digit (str_nat n) /\ str_nat n <> [].
Proof.
  unfold str_nat. split.
  - apply str_digits_digits. constructor.
  - intros Hnil. apply (f_equal (@List.length ascii)) in Hnil.
    simpl in Hnil. destruct (n <? 10); simpl in Hnil; [discriminate|].
    pose proof (str_digits_length (Z.to_nat (Z.log2 n)) (n / 10)
                  [digit_char (n mod 10)]) as Hlen.
    simpl in Hlen. lia.
Qed.

Lemma int_digits_total (s : list ascii) :
  Forall is_digit s -> forall acc, exists v, int_digits acc s = Some v.
Proof.
  induction 1 as [|c r [d Hd] _ IH]; simpl; intros acc.
  - eauto.
  - rewrite Hd. apply IH.
Qed.

Lemma int_unsigned_total (s : list ascii) :
  Forall is_digit s -> s <> [] -> exists v, int_unsigned s = Some v.
Proof.
  intros Hs Hne. destruct s as [|c r]; [congruence|].
  apply (int_digits_total _ Hs).
Qed.

(** A digit is neither of the two sign characters. *)
Lemma int_digit_first (c : ascii) (r : list ascii) :
  is_digit c -> int (c :: r) = int_unsigned (c :: r).
Proof.
  intros [d Hd].
  destruct c as [[] [] [] [] [] [] [] []];
    try reflexivity; vm_compute in Hd; discriminate Hd.
Qed.

Lemma Forall_skipn_digits (k : nat) :
  forall s, Forall is_digit s -> Forall is_digit (skipn k s).
Proof.
  induction k as [|k IH]; intros s Hs; [exact Hs|].
  destruct Hs; simpl; [constructor | apply IH; assumption].
Qed.

Lemma int_last2_digits (s : list ascii) :
  Forall is_digit s -> s <> [] -> exists v, int (last2 s) = Some v.
Proof.
  intros Hs Hne. unfold last2.
  pose proof (Forall_skipn_digits (List.length s - 2) s Hs) as Hsk.
  pose proof (length_skipn (List.length s - 2) s) as Hlen.
  destruct (skipn (List.length s - 2) s) as [|c r] eqn:E.
  - destruct s as [|a s']; [congruence|].
    cbn [List.length] in Hlen. lia.
  - rewrite int_digit_first by (inversion Hsk; assumption).
    apply int_unsigned_total; [assumption | discriminate].
Qed.

Lemma int_last2_minus (s : list ascii) :
  Forall is_digit s -> s <> [] -> exists v, int (last2 ("-"%char :: s)) = Some v.
Proof.
  intros Hs Hne. destruct s as [|c [|c2 r]]; [congruence | |].
  - destruct (int_unsigned_total [c] Hs Hne) as [v Hv].
    exists (- v). change (last2 ["-"%char; c]) with ["-"%char; c].
    change (int ["-"%char; c]) with (option_map Z.opp (int_unsigned [c])).
    rewrite Hv. reflexivity.
  - replace (last2 ("-"%char :: c :: c2 :: r)) with (last2 (c :: c2 :: r)).
    + apply int_last2_digits; assumption.
    + unfold last2. simpl. rewrite Nat.sub_0_r. reflexivity.
Qed.

(** For every integer year the conversion yields a number. *)
Lemma year_total (y : Z) : exists yy, int (last2 (str y)) = Some yy.
Proof.
  unfold str. destruct (str_nat_shape y) as [Hd Hne].
  destruct (str_nat_shape (- y)) as [Hd' Hne'].
  destruct (y <? 0).
  - apply int_last2_minus; assumption.
  - apply int_last2_digits; assumption.
Qed.

(** For the years 2000-2099 it yields the last two digits. *)
Lemma year_2000s (y : Z) :
  2000 <= y <= 2099 -> int (last2 (str y)) = Some (y - 2000).
Proof.
  intros Hy.
  pose proof (all_below_spec 100
    (fun k => match int (last2 (str (2000 + k))) with
              | Some v => v =? k
              | None => false
              end)) as H.
  specialize (H ltac:(vm_compute; reflexivity) (y - 2000) ltac:(lia)).
  cbv beta in H. replace (2000 + (y - 2000)) with y in H by lia.
  destruct (int (last2 (str y))) as [v|]; [|discriminate].
  apply Z.eqb_eq in H. congruence.
Qed.

(** The fuel of [str_nat] is enough: [int] reads back what [str] prints. *)
Lemma int_digits_str_digits (fuel : nat) :
  forall n acc, 0 <= n < 10 ^ Z.of_nat fuel ->
  int_digits 0 (str_digits fuel n acc) = int_digits n acc.
Proof.
  induction fuel as [|f IH]; intros n acc Hn.
  - simpl in Hn. assert (n = 0) by lia. subst n. reflexivity.
  - cbn [str_digits]. cbv zeta.
    destruct (digit_char_is_digit (n mod 10)) as [d' Hd'].
    { apply Z.mod_pos_bound. lia. }
    assert (Hd : digit_val (digit_char (n mod 10)) = Some (n mod 10)).
    { pose proof (all_below_spec 10
        (fun d => match digit_val (digit_char d) with
                  | Some v => v =? d
                  | None => false
                  end)) as H.
      specialize (H ltac:(vm_compute; reflexivity) (n mod 10)
                    ltac:(apply Z.mod_pos_bound; lia)).
      cbv beta in H. rewrite Hd' in H |- *. apply Z.eqb_eq in H. congruence. }
    rewrite Nat2Z.inj_succ, Z.pow_succ_r in Hn by lia.
    destruct (n <? 10) eqn:Hlt.
    + apply Z.ltb_lt in Hlt. cbn [int_digits]. rewrite Hd.
      rewrite Z.mod_small by lia. reflexivity.
    + apply Z.ltb_ge in Hlt. rewrite IH.
      * cbn [int_digits]. rewrite Hd. f_equal.
        pose proof (Z.div_mod n 10). lia.
      * split; [apply Z.div_pos; lia | apply Z.div_lt_upper_bound; lia].
Qed.

Lemma int_str_nat (n : Z) : 0 <= n -> int (str_nat n) = Some n.
Proof.
  intros Hn. destruct (str_nat_shape n) as [Hd Hne].
  destruct (str_nat n) as [|c r] eqn:E; [congruence|].
  rewrite int_digit_first by (inversion Hd; assumption).
  cbn [int_unsigned]. rewrite <- E. unfold str_nat.
  rewrite int_digits_str_digits; [reflexivity|].
  split; [assumption|].
  destruct (Z.eq_dec n 0) as [->|Hnz]; [reflexivity|].
  destruct (Z.log2_spec n ltac:(lia)) as [_ Hup].
  rewrite Nat2Z.inj_succ, Z2Nat.id by apply Z.log2_nonneg.
  eapply Z.lt_le_trans; [exact Hup|].
  apply Z.pow_le_mono_l. lia.
Qed.

Lemma int_str (n : Z) : int (str n) = Some n.
Proof.
  unfold str. destruct (n <? 0) eqn:Hneg.
  - apply Z.ltb_lt in Hneg.
    destruct (str_nat_shape (- n)) as [Hd Hne].
    pose proof (int_str_nat (- n) ltac:(lia)) as H.
    destruct (str_nat (- n)) as [|c r] eqn:E; [congruence|].
    rewrite int_digit_first in H by (inversion Hd; assumption).
    change (int ("-"%char :: c :: r))
      with (option_map Z.opp (int_unsigned (c :: r))).
    rewrite H. simpl. f_equal. lia.
  - apply Z.ltb_ge in Hneg. apply int_str_nat. assumption.
Qed.


(** ** Setting the time *)

(** The bytes [datetime(dt)] builds from year [y] (converted to [yy]),
    month, day, hour, minute and the optional second and weekday in
    [rest]; an absent field gives the byte 0. *)
Lemma datetime_set_run (s : state) (y mo d h mi : Z) (rest : list Z) (yy : Z) :
  wf s -> int (last2 (str y)) = Some yy ->
  let tb := [byte_of (dectobcd (nth 0 rest 0)); byte_of (dectobcd mi);
             byte_of (dectobcd h); byte_of (dectobcd (nth 1 rest 0));
             byte_of (dectobcd d); byte_of (Z.land (dectobcd mo) 0xFF);
             byte_of (dectobcd yy)] in
  let st := regs s STATUS_REG in
  let cleared := byte_of (Z.land st 0x7F) in
  datetime (Some (y :: mo :: d :: h :: mi :: rest)) s =
    (Ok (VBool true),
     mkState
       (write_block (write_block (regs s) DATETIME_REG tb) STATUS_REG [cleared])
       (traffic s ++ [BusWrite (addr s) DATETIME_REG tb;
                      BusRead (addr s) STATUS_REG 1;
                      BusWrite (addr s) STATUS_REG [cleared]])
       (addr s) tb [st] (_al1_buf s) (_al2buf s) (console s)).
Proof.
  intros Hwf Hyy. cbv zeta. open_state s Hwf.
  destruct rest as [|sec [|wd rest]]; run;
    cbv beta iota delta [bind ret]; rewrite Hyy; run;
    rewrite <- !app_assoc; reflexivity.
Qed.

(** What [_OSF_reset] writes: bit 7 cleared, bits 0-6 kept, whatever
    integer the status read returned. *)
Lemma osf_cleared (st : Z) :
  let c := byte_of (Z.land st 0x7F) in
  Z.testbit c 7 = false /\
  (forall i, 0 <= i < 7 -> Z.testbit c i = Z.testbit st i) /\
  truthy (Z.land c 0x80) = false.
Proof.
  cbv zeta. unfold byte_of.
  change 0x7F with (Z.ones 7). rewrite Z.land_ones by lia.
  assert (Hr : 0 <= st mod 2 ^ 7 < 128) by (apply Z.mod_pos_bound; lia).
  rewrite (Z.mod_small (st mod 2 ^ 7) 256) by lia.
  split; [|split].
  - apply Z.mod_pow2_bits_high. lia.
  - intros i Hi. apply Z.mod_pow2_bits_low. lia.
  - unfold truthy.
    replace (Z.land (st mod 2 ^ 7) 128) with 0; [reflexivity|].
    symmetry. apply Z.bits_inj'. intros n Hn.
    rewrite Z.land_spec, Z.bits_0.
    destruct (Z.eq_dec n 7) as [->|Hne].
    + rewrite Z.mod_pow2_bits_high by lia. reflexivity.
    + change 128 with (2 ^ 7). rewrite Z.pow2_bits_false by lia.
      apply andb_false_r.
Qed.

(** Decoding a field that was encoded by [dectobcd] and stored in a byte. *)
Lemma field_roundtrip (n : Z) :
  0 <= n <= 99 ->
  bcdtodec (byte_of (dectobcd n)) = n /\
  (n <= 79 ->
   bcdtodec (Z.land (byte_of (Z.land (dectobcd n) 0xFF)) 0x7F) = n) /\
  (n <= 23 -> decode_hour (byte_of (dectobcd n)) = n).
Proof.
  intros Hn.
  pose proof (all_below_spec 100
    (fun n =>
       (bcdtodec (byte_of (dectobcd n)) =? n) &&
       (implb (n <=? 79)
          (bcdtodec (Z.land (byte_of (Z.land (dectobcd n) 0xFF)) 0x7F) =? n)) &&
       (implb (n <=? 23) (decode_hour (byte_of (dectobcd n)) =? n)))) as H.
  specialize (H ltac:(vm_compute; reflexivity) n ltac:(lia)). cbv beta in H.
  repeat (apply andb_prop in H; destruct H as [H ?]).
  split; [apply Z.eqb_eq; assumption|].
  split; intros Hle; apply Z.eqb_eq.
  - apply Z.leb_le in Hle. rewrite Hle in *. assumption.
  - apply Z.leb_le in Hle. rewrite Hle in *. assumption.
Qed.

(** C9. Setting the time clears the oscillator-stop flag: for every tuple
    with the five required fields and every status-register value,
    [datetime(dt)] returns [True], its last bus transaction writes the status
    register, and in the status register afterwards bit 7 is 0 and bits 0-6
    are the ones the status register had. *)
Theorem datetime_set_clears_osf (s : state) (dt : list Z) :
  wf s -> (5 <= List.length dt)%nat ->
  let r := datetime (Some dt) s in
  let st := regs s STATUS_REG in
  let st' := regs (snd r) STATUS_REG in
  fst r = Ok (VBool true) /\
  Z.testbit st' 7 = false /\
  (forall i, 0 <= i < 7 -> Z.testbit st' i = Z.testbit st i) /\
  exists tb,
    traffic (snd r) =
      traffic s ++ [BusWrite (addr s) DATETIME_REG tb;
                    BusRead (addr s) STATUS_REG 1;
                    BusWrite (addr s) STATUS_REG [st']].
Proof.
  intros Hwf Hlen.
  destruct dt as [|y [|mo [|d [|h [|mi rest]]]]]; simpl in Hlen; try lia.
  destruct (year_total y) as [yy Hyy]. cbv zeta.
  rewrite (datetime_set_run s y mo d h mi rest yy Hwf Hyy).
  destruct (osf_cleared (regs s STATUS_REG)) as (H7 & Hlow & _).
  run. repeat split; try assumption. eexists. reflexivity.
Qed.

Lemma datetime_set_clears_osf_witness :
  let s := __init__ (chip_ctrl_status 0 0x8B) 0x68 in
  wf s /\ (5 <= List.length [2023; 6; 15; 10; 30]%Z)%nat /\
  fst (datetime (Some [2023; 6; 15; 10; 30]) s) = Ok (VBool true) /\
  regs (snd (datetime (Some [2023; 6; 15; 10; 30]) s)) STATUS_REG = 0x0B.
Proof.
  cbv zeta.
  assert (Hwf : wf (__init__ (chip_ctrl_status 0 0x8B) 0x68)) by apply init_wf.
  assert (Hlen : (5 <= List.length [2023; 6; 15; 10; 30]%Z)%nat) by (simpl; lia).
  pose proof (datetime_set_clears_osf _ _ Hwf Hlen) as H.
  cbv zeta in H. destruct H as (Hr & _).
  split; [exact Hwf|]. split; [exact Hlen|].
  split; [exact Hr | reflexivity].
Defined.

(** C1. Time round trip: for every year 2000-2099, month 1-12, day 1-31,
    hour 0-23, minute 0-59, second 0-59 and weekday 1-7, on a chip that
    returns the bytes last written, [datetime(dt)] returns [True] and the
    following [datetime()] returns
    [(year, month, day, weekday, hour, minute, second, 0)] without printing
    the oscillator warning. *)
Theorem datetime_roundtrip (s : state) (y mo d h mi sec wd : Z) :
  wf s ->
  2000 <= y <= 2099 -> 1 <= mo <= 12 -> 1 <= d <= 31 ->
  0 <= h <= 23 -> 0 <= mi <= 59 -> 0 <= sec <= 59 -> 1 <= wd <= 7 ->
  let r1 := datetime (Some [y; mo; d; h; mi; sec; wd]) s in
  let r2 := datetime None (snd r1) in
  fst r1 = Ok (VBool true) /\
  fst r2 = Ok (VTuple [y; mo; d; wd; h; mi; sec; 0]) /\
  console (snd r2) = console s.
Proof.
  intros Hwf Hy Hmo Hd Hh Hmi Hsec Hwd. cbv zeta.
  rewrite (datetime_set_run s y mo d h mi [sec; wd] (y - 2000) Hwf
             (year_2000s y Hy)).
  destruct (osf_cleared (regs s STATUS_REG)) as (_ & _ & Hosf).
  run. change (regs s 15) with (regs s STATUS_REG). rewrite Hosf. run.
  destruct (field_roundtrip sec ltac:(lia)) as (-> & _ & _).
  destruct (field_roundtrip mi ltac:(lia)) as (-> & _ & _).
  destruct (field_roundtrip h ltac:(lia)) as (_ & _ & ->); [|lia].
  destruct (field_roundtrip wd ltac:(lia)) as (-> & _ & _).
  destruct (field_roundtrip d ltac:(lia)) as (-> & _ & _).
  destruct (field_roundtrip mo ltac:(lia)) as (_ & -> & _); [|lia].
  destruct (field_roundtrip (y - 2000) ltac:(lia)) as (-> & _ & _).
  replace (y - 2000 + 2000) with y by lia.
  repeat split.
Qed.

Lemma datetime_roundtrip_witness :
  let s := __init__ (chip_ctrl_status 0 0x80) 0x68 in
  let r1 := datetime (Some [2023; 6; 15; 10; 30; 45; 4]) s in
  wf s /\
  fst r1 = Ok (VBool true) /\
  fst (datetime None (snd r1)) = Ok (VTuple [2023; 6; 15; 4; 10; 30; 45; 0]).
Proof.
  cbv zeta.
  pose proof (datetime_roundtrip (__init__ (chip_ctrl_status 0 0x80) 0x68)
                2023 6 15 10 30 45 4 (init_wf _ _)
                ltac:(lia) ltac:(lia) ltac:(lia) ltac:(lia)
                ltac:(lia) ltac:(lia) ltac:(lia)) as H.
  cbv zeta in H. destruct H as (H1 & H2 & _).
  split; [apply init_wf|]. split; [exact H1 | exact H2].
Defined.

(** ** Alarm 1 *)

(** [alarm1(time, match, int_en, weekday)] on a non-empty tuple: the four
    bytes, each the BCD of its field (nothing for an absent field) or-ed
    with its mask bit, are written in one block to the alarm-1 registers
    before any other bus transaction, and are what the call returns. *)
Lemma alarm1_run (s : state) (v : Z) (rest : list Z) (match_ : Z)
    (int_en weekday : bool) :
  wf s ->
  let a1m1 := Z.shiftl (Z.land match_ 0x01) 7 in
  let a1m2 := Z.shiftl (Z.land match_ 0x02) 6 in
  let a1m3 := Z.shiftl (Z.land match_ 0x04) 5 in
  let a1m4 := Z.shiftl (Z.land match_ 0x08) 4 in
  let dydt := if weekday then Z.shiftl 1 6 else 0 in
  let bytes :=
    [byte_of (Z.lor (dectobcd v) a1m1);
     byte_of (match nth_error rest 0 with
              | Some m => Z.lor (dectobcd m) a1m2
              | None => a1m2
              end);
     byte_of (match nth_error rest 1 with
              | Some h => Z.lor (dectobcd h) a1m3
              | None => a1m3
              end);
     byte_of (match nth_error rest 2 with
              | Some d => Z.lor (Z.lor (dectobcd d) a1m4) dydt
              | None => Z.lor a1m4 dydt
              end)] in
  let r := alarm1 (Some (TimeTuple (v :: rest))) match_ int_en weekday s in
  fst r = Ok bytes /\
  exists tail,
    traffic (snd r) = traffic s ++ BusWrite (addr s) ALARM1_REG bytes :: tail.
Proof.
  intros Hwf. cbv zeta. open_state s Hwf.
  destruct rest as [|m [|h [|d rest]]]; destruct int_en; run;
    unfold check_alarm; cbv beta iota delta [bind]; run;
    match goal with
    | |- context [negb (truthy ?c)] => destruct (negb (truthy c))
    end; run; rewrite <- !app_assoc;
    (split; [reflexivity | eexists; reflexivity]).
Qed.

(** Bit 7 of a stored byte is bit 7 of the integer stored. *)
Lemma byte_of_bit7 (x : Z) : Z.testbit (byte_of x) 7 = Z.testbit x 7.
Proof.
  unfold byte_of. change 256 with (2 ^ 8). apply Z.mod_pow2_bits_low. lia.
Qed.

(** The BCD of a number below 80 leaves bit 7 free. *)
Lemma dectobcd_bit7 (x : Z) : 0 <= x < 80 -> Z.testbit (dectobcd x) 7 = false.
Proof.
  intros Hx.
  pose proof (all_below_spec 80
    (fun x => negb (Z.testbit (dectobcd x) 7))) as H.
  specialize (H ltac:(vm_compute; reflexivity) x Hx). cbv beta in H.
  apply negb_true_iff in H. exact H.
Qed.

Ltac bit7 :=
  rewrite byte_of_bit7, ?Z.lor_spec.

(** C7. Alarm 1 mask construction, for a non-empty tuple of fields: with
    [AL1_MATCH_DHMS] and fields below 80 (every valid second, minute, hour,
    day or weekday is) each of the four bytes written has bit 7 equal to 0;
    with [AL1_EVERY_S] each of the four bytes written has bit 7 equal to 1,
    whatever the fields; and [alarm1(time=(30,), match=AL1_MATCH_S)] writes
    four bytes of which the first decodes to second 30 with bit 7 equal to
    0 and the other three have bit 7 equal to 1. *)
Theorem alarm1_mask_bits (s : state) (v : Z) (rest : list Z)
    (int_en weekday : bool) :
  wf s ->
  (Forall (fun x => 0 <= x < 80) (v :: rest) ->
   let r := alarm1 (Some (TimeTuple (v :: rest))) AL1_MATCH_DHMS
                   int_en weekday s in
   exists bytes tail,
     fst r = Ok bytes /\
     traffic (snd r) = traffic s ++ BusWrite (addr s) ALARM1_REG bytes :: tail /\
     List.length bytes = 4%nat /\
     Forall (fun b => Z.testbit b 7 = false) bytes) /\
  (let r := alarm1 (Some (TimeTuple (v :: rest))) AL1_EVERY_S
                   int_en weekday s in
   exists bytes tail,
     fst r = Ok bytes /\
     traffic (snd r) = traffic s ++ BusWrite (addr s) ALARM1_REG bytes :: tail /\
     List.length bytes = 4%nat /\
     Forall (fun b => Z.testbit b 7 = true) bytes) /\
  (let r := alarm1 (Some (TimeTuple [30])) AL1_MATCH_S int_en weekday s in
   exists b0 b1 b2 b3 tail,
     fst r = Ok [b0; b1; b2; b3] /\
     traffic (snd r) =
       traffic s ++ BusWrite (addr s) ALARM1_REG [b0; b1; b2; b3] :: tail /\
     bcdtodec (Z.land b0 0x7F) = 30 /\
     Z.testbit b0 7 = false /\
     Z.testbit b1 7 = true /\ Z.testbit b2 7 = true /\ Z.testbit b3 7 = true).
Proof.
  intros Hwf. split; [|split].
  - intros Hrange. cbv zeta.
    destruct (alarm1_run s v rest AL1_MATCH_DHMS int_en weekday Hwf)
      as (Hr & tail & Ht).
    eexists. exists tail. split; [exact Hr|]. split; [exact Ht|].
    split; [reflexivity|].
    inversion_clear Hrange as [|? ? Hv Hrest].
    assert (Hnth : forall i m, nth_error rest i = Some m -> 0 <= m < 80).
    { intros i m Hi. apply nth_error_In in Hi.
      rewrite Forall_forall in Hrest. apply Hrest. exact Hi. }
    repeat constructor.
    + bit7. rewrite dectobcd_bit7 by assumption. reflexivity.
    + destruct (nth_error rest 0) as [m|] eqn:E; bit7; [|reflexivity].
      rewrite dectobcd_bit7 by (apply (Hnth 0%nat); assumption). reflexivity.
    + destruct (nth_error rest 1) as [m|] eqn:E; bit7; [|reflexivity].
      rewrite dectobcd_bit7 by (apply (Hnth 1%nat); assumption). reflexivity.
    + destruct (nth_error rest 2) as [m|] eqn:E; bit7.
      * rewrite dectobcd_bit7 by (apply (Hnth 2%nat); assumption).
        destruct weekday; reflexivity.
      * destruct weekday; reflexivity.
  - cbv zeta.
    destruct (alarm1_run s v rest AL1_EVERY_S int_en weekday Hwf)
      as (Hr & tail & Ht).
    eexists. exists tail. split; [exact Hr|]. split; [exact Ht|].
    split; [reflexivity|].
    repeat constructor.
    + bit7. apply orb_true_r.
    + destruct (nth_error rest 0); bit7; [apply orb_true_r | reflexivity].
    + destruct (nth_error rest 1); bit7; [apply orb_true_r | reflexivity].
    + destruct (nth_error rest 2); bit7.
      * destruct (Z.testbit (dectobcd z) 7); destruct weekday; reflexivity.
      * destruct weekday; reflexivity.
  - cbv zeta.
    destruct (alarm1_run s 30 [] AL1_MATCH_S int_en weekday Hwf)
      as (Hr & tail & Ht).
    do 4 eexists. exists tail. split; [exact Hr|]. split; [exact Ht|].
    repeat split; try reflexivity; destruct weekday; reflexivity.
Qed.

Lemma alarm1_mask_bits_witness :
  let s := __init__ (chip_ctrl_status 0 0x01) 0x68 in
  wf s /\
  Forall (fun x => 0 <= x < 80) [45; 30; 7; 15] /\
  fst (alarm1 (Some (TimeTuple [45; 30; 7; 15])) AL1_MATCH_DHMS true false s)
    = Ok [0x45; 0x30; 0x07; 0x15] /\
  fst (alarm1 (Some (TimeTuple [45; 30; 7; 15])) AL1_EVERY_S true false s)
    = Ok [0xC5; 0xB0; 0x87; 0x95] /\
  fst (alarm1 (Some (TimeTuple [30])) AL1_MATCH_S true false s)
    = Ok [0x30; 0x80; 0x80; 0x80] /\
  exists bytes,
    fst (alarm1 (Some (TimeTuple [45; 30; 7; 15])) AL1_MATCH_DHMS true false s)
      = Ok bytes /\
    Forall (fun b => Z.testbit b 7 = false) bytes.
Proof.
  cbv zeta.
  assert (Hwf : wf (__init__ (chip_ctrl_status 0 0x01) 0x68)) by apply init_wf.
  assert (Hrange : Forall (fun x => 0 <= x < 80) [45; 30; 7; 15])
    by (repeat constructor; lia).
  pose proof (alarm1_mask_bits _ 45 [30; 7; 15] true false Hwf) as H.
  destruct H as (Hall & _ & _). specialize (Hall Hrange). cbv zeta in Hall.
  destruct Hall as (bytes & tail & Hr & _ & _ & Hbits).
  split; [exact Hwf|]. split; [exact Hrange|].
  split; [reflexivity|]. split; [reflexivity|]. split; [reflexivity|].
  exists bytes. split; [exact Hr | exact Hbits].
Defined.

(** ** No validation of the fields *)

(** C10. No range check precedes the bus write.  For every integer year,
    month, day, hour, minute, second and weekday, [datetime(dt)] raises
    nothing, issues the 7-byte block write of the low eight bits of each
    field's [dectobcd] image and returns [True]; for every four integer
    alarm fields, match value and flags, [alarm1] raises nothing, issues the
    4-byte block write of the low eight bits of each field's [dectobcd] image
    or-ed with its mask, and returns those bytes. *)
Theorem no_input_validation (s : state) (y mo d h mi sec wd : Z)
    (a_s a_m a_h a_d match_ : Z) (int_en weekday : bool) :
  wf s ->
  (exists yy tail,
     int (last2 (str y)) = Some yy /\
     let r := datetime (Some [y; mo; d; h; mi; sec; wd]) s in
     fst r = Ok (VBool true) /\
     traffic (snd r) =
       traffic s ++
       BusWrite (addr s) DATETIME_REG
         [byte_of (dectobcd sec); byte_of (dectobcd mi);
          byte_of (dectobcd h); byte_of (dectobcd wd);
          byte_of (dectobcd d); byte_of (Z.land (dectobcd mo) 0xFF);
          byte_of (dectobcd yy)] :: tail) /\
  (exists tail,
     let bytes :=
       [byte_of (Z.lor (dectobcd a_s) (Z.shiftl (Z.land match_ 0x01) 7));
        byte_of (Z.lor (dectobcd a_m) (Z.shiftl (Z.land match_ 0x02) 6));
        byte_of (Z.lor (dectobcd a_h) (Z.shiftl (Z.land match_ 0x04) 5));
        byte_of (Z.lor (Z.lor (dectobcd a_d) (Z.shiftl (Z.land match_ 0x08) 4))
                       (if weekday then Z.shiftl 1 6 else 0))] in
     let r := alarm1 (Some (TimeTuple [a_s; a_m; a_h; a_d])) match_
                     int_en weekday s in
     fst r = Ok bytes /\
     traffic (snd r) = traffic s ++ BusWrite (addr s) ALARM1_REG bytes :: tail).
Proof.
  intros Hwf. split.
  - destruct (year_total y) as [yy Hyy].
    exists yy. eexists. split; [exact Hyy|]. cbv zeta.
    rewrite (datetime_set_run s y mo d h mi [sec; wd] yy Hwf Hyy).
    split; reflexivity.
  - destruct (alarm1_run s a_s [a_m; a_h; a_d] match_ int_en weekday Hwf)
      as (Hr & tail & Ht).
    exists tail. cbv zeta. split; [exact Hr | exact Ht].
Qed.

(** Two out-of-range inputs: hour 30 is written as the byte 0x30, and the
    alarm field 100 as the byte 0xA0, which is not BCD. *)
Lemma no_input_validation_witness :
  let s := __init__ (chip_ctrl_status 0 0) 0x68 in
  wf s /\
  fst (datetime (Some [2023; 6; 15; 30; 0; 0; 1]) s) = Ok (VBool true) /\
  traffic (snd (datetime (Some [2023; 6; 15; 30; 0; 0; 1]) s))
    = [BusWrite 0x68 DATETIME_REG [0x00; 0x00; 0x30; 0x01; 0x15; 0x06; 0x23];
       BusRead 0x68 STATUS_REG 1; BusWrite 0x68 STATUS_REG [0x00]] /\
  fst (alarm1 (Some (TimeTuple [100; 0; 0; 1])) AL1_MATCH_DHMS true false s)
    = Ok [0xA0; 0x00; 0x00; 0x01].
Proof.
  cbv zeta.
  assert (Hwf : wf (__init__ (chip_ctrl_status 0 0) 0x68)) by apply init_wf.
  pose proof (no_input_validation _ 2023 6 15 30 0 0 1 100 0 0 1
                AL1_MATCH_DHMS true false Hwf) as H.
  destruct H as ((yy & tail & _ & Hd) & (tail' & Ha)).
  cbv zeta in Hd, Ha. destruct Hd as (Hd & _). destruct Ha as (Ha & _).
  split; [exact Hwf|]. split; [exact Hd|]. split; [reflexivity|].
  exact Ha.
Defined.

(** ** Short tuples and the size of the buffers *)

(** A tuple without the five required fields raises [IndexError] before any
    bus transaction. *)
Lemma datetime_short_tuple (s : state) (dt : list Z) :
  wf s -> (List.length dt < 5)%nat ->
  fst (datetime (Some dt) s) = Raise IndexError /\
  traffic (snd (datetime (Some dt) s)) = traffic s /\
  regs (snd (datetime (Some dt) s)) = regs s.
Proof.
  intros Hwf Hlen. open_state s Hwf.
  destruct dt as [|y [|mo [|d [|h [|mi rest]]]]]; simpl in Hlen; try lia;
    run; repeat split.
Qed.

(** The methods keep the buffers at the sizes [__init__] gave them. *)
Lemma check_alarm_wf (s : state) (alarm : Z) :
  wf s -> wf (snd (check_alarm alarm s)).
Proof.
  intros Hwf. open_state s Hwf. run.
  destruct (negb (truthy (Z.land (rg STATUS_REG) alarm))); repeat split.
Qed.

Lemma alarm_int_wf (s : state) (enable : bool) (alarm : Z) :
  wf s -> wf (snd (alarm_int enable alarm s)).
Proof.
  intros Hwf. open_state s Hwf. unfold alarm_int.
  destruct ((alarm =? 0) || (alarm =? 1)), ((alarm =? 0) || (alarm =? 2));
    run; repeat split.
Qed.

Lemma square_wave_wf (s : state) (freq : option Z) :
  wf s -> wf (snd (square_wave freq s)).
Proof.
  intros Hwf. open_state s Hwf. destruct freq; run; repeat split.
Qed.

Lemma datetime_get_wf (s : state) : wf s -> wf (snd (datetime None s)).
Proof.
  intros Hwf. open_state s Hwf. run.
  destruct (truthy (Z.land (rg STATUS_REG) 128)); repeat split.
Qed.

(** * Further properties of the driver *)

(** ** BCD, the other direction and the limits *)

(** Encoding what was decoded from a BCD byte gives the byte back. *)
Theorem bcd_decode_encode (b : Z) :
  is_byte b -> is_bcd b = true ->
  0 <= bcdtodec b <= 99 /\ dectobcd (bcdtodec b) = b.
Proof.
  intros Hb Hbcd.
  pose proof (byte_cases
    (fun b => implb (is_bcd b)
                ((0 <=? bcdtodec b) && (bcdtodec b <=? 99) &&
                 (dectobcd (bcdtodec b) =? b)))) as H.
  specialize (H ltac:(vm_compute; reflexivity) b Hb). cbv beta in H.
  rewrite Hbcd in H. simpl in H.
  repeat (apply andb_prop in H; destruct H as [H ?]).
  split; [lia | apply Z.eqb_eq; assumption].
Qed.

Lemma bcd_decode_encode_witness :
  is_byte 0x59 /\ is_bcd 0x59 = true /\
  bcdtodec 0x59 = 59 /\ dectobcd (bcdtodec 0x59) = 0x59.
Proof.
  assert (Hb : is_byte 0x59) by (apply is_byte_intro; reflexivity).
  split; [exact Hb|]. split; [reflexivity|]. split; [reflexivity|].
  apply (bcd_decode_encode 0x59 Hb eq_refl).
Defined.

(** The encoding of a number 0-99 is a byte with two decimal nibbles. *)
Theorem dectobcd_is_bcd (n : Z) :
  0 <= n <= 99 -> is_byte (dectobcd n) /\ is_bcd (dectobcd n) = true.
Proof.
  intros Hn.
  pose proof (all_below_spec 100
    (fun n => (0 <=? dectobcd n) && (dectobcd n <? 256) &&
              is_bcd (dectobcd n))) as H.
  specialize (H ltac:(vm_compute; reflexivity) n ltac:(lia)). cbv beta in H.
  repeat (apply andb_prop in H; destruct H as [H ?]).
  unfold is_byte. split; [lia | assumption].
Qed.

Lemma dectobcd_is_bcd_witness :
  0 <= 99 <= 99 /\ is_byte (dectobcd 99) /\ is_bcd (dectobcd 99) = true.
Proof.
  split; [lia|]. apply (dectobcd_is_bcd 99). lia.
Defined.

(** [dectobcd] as arithmetic: sixteen times the tens plus the ones. *)
Lemma dectobcd_arith (n : Z) : dectobcd n = 16 * (n / 10) + n mod 10.
Proof.
  unfold dectobcd. cbv zeta.
  assert (Hr : 0 <= n mod 10 < 10) by (apply Z.mod_pos_bound; lia).
  rewrite Z.shiftl_mul_pow2 by lia.
  assert (Hdisj : Z.land (n / 10 * 2 ^ 4) (n mod 10) = 0).
  { apply Z.bits_inj'. intros i Hi. rewrite Z.land_spec, Z.bits_0.
    destruct (Z.lt_ge_cases i 4) as [Hlt|Hge].
    - rewrite Z.mul_pow2_bits_low by lia. reflexivity.
    - rewrite <- (Z.mod_small (n mod 10) (2 ^ 4)) by (simpl; lia).
      rewrite Z.mod_pow2_bits_high by lia. apply andb_false_r. }
  rewrite <- Z.lxor_lor by exact Hdisj.
  rewrite <- Z.add_nocarry_lxor by exact Hdisj.
  change (2 ^ 4) with 16. lia.
Qed.

(** Out of a byte, the encoding wraps: a field and the field plus 160 are
    stored as the same byte. *)
Theorem dectobcd_wraps (n : Z) :
  byte_of (dectobcd (n + 160)) = byte_of (dectobcd n).
Proof.
  rewrite !dectobcd_arith. unfold byte_of.
  replace (n + 160) with (n + 16 * 10) by lia.
  rewrite Z.div_add, Z.mod_add by lia.
  replace (16 * (n / 10 + 16) + n mod 10)
    with (16 * (n / 10) + n mod 10 + 1 * 256) by lia.
  apply Z.mod_add. lia.
Qed.

(** Below 160 the encoding fits a byte and is stored as it is. *)
Theorem dectobcd_fits (n : Z) :
  0 <= n < 160 -> byte_of (dectobcd n) = dectobcd n.
Proof.
  intros Hn.
  pose proof (all_below_spec 160
    (fun n => byte_of (dectobcd n) =? dectobcd n)) as H.
  specialize (H ltac:(vm_compute; reflexivity) n Hn). cbv beta in H.
  apply Z.eqb_eq. exact H.
Qed.

Lemma dectobcd_fits_witness :
  0 <= 159 < 160 /\ byte_of (dectobcd 159) = 0xF9.
Proof.
  split; [lia|]. rewrite (dectobcd_fits 159) by lia. reflexivity.
Defined.

(** ** The year: only its last two decimal digits count *)

Lemma digit_val_char (d : Z) :
  0 <= d < 10 -> digit_val (digit_char d) = Some d.
Proof.
  intros Hd. destruct (digit_char_is_digit d Hd) as [d' Hd'].
  pose proof (all_below_spec 10
    (fun d => match digit_val (digit_char d) with
              | Some v => v =? d
              | None => false
              end)) as H.
  specialize (H ltac:(vm_compute; reflexivity) d Hd). cbv beta in H.
  rewrite Hd' in H |- *. apply Z.eqb_eq in H. congruence.
Qed.

(** The accumulator of [str_digits] is the tail of its result. *)
Lemma str_digits_acc (fuel : nat) :
  forall n acc, str_digits fuel n acc = str_digits fuel n [] ++ acc.
Proof.
  induction fuel as [|f IH]; intros n acc; [reflexivity|].
  cbn [str_digits]. cbv zeta. destruct (n <? 10); [reflexivity|].
  rewrite (IH (n / 10) (digit_char (n mod 10) :: acc)).
  rewrite (IH (n / 10) [digit_char (n mod 10)]).
  rewrite <- app_assoc. reflexivity.
Qed.

Lemma last2_app2 {A : Type} (pre : list A) (a b : A) :
  last2 (pre ++ [a; b]) = [a; b].
Proof.
  unfold last2. rewrite length_app. cbn [List.length].
  replace (List.length pre + 2 - 2)%nat with (List.length pre) by lia.
  rewrite skipn_app, skipn_all, Nat.sub_diag. reflexivity.
Qed.

(** For a year that is not negative, [int(str(year)[-2:])] is the year
    modulo 100. *)
Lemma year_last_two_digits (y : Z) :
  0 <= y -> int (last2 (str y)) = Some (y mod 100).
Proof.
  intros Hy. unfold str.
  destruct (y <? 0) eqn:Hneg; [apply Z.ltb_lt in Hneg; lia|]. clear Hneg.
  assert (H0 : 0 <= y mod 10 < 10) by (apply Z.mod_pos_bound; lia).
  unfold str_nat. cbn [str_digits]. cbv zeta.
  destruct (y <? 10) eqn:Hlt.
  - apply Z.ltb_lt in Hlt.
    change (last2 [digit_char (y mod 10)]) with [digit_char (y mod 10)].
    rewrite int_digit_first by (apply digit_char_is_digit; exact H0).
    cbn [int_unsigned int_digits]. rewrite digit_val_char by exact H0.
    f_equal. rewrite Z.mod_small by lia. rewrite Z.mod_small by lia. lia.
  - apply Z.ltb_ge in Hlt.
    assert (H1 : 0 <= (y / 10) mod 10 < 10) by (apply Z.mod_pos_bound; lia).
    assert (Hlog : 0 < Z.log2 y) by (apply Z.log2_pos; lia).
    destruct (Z.to_nat (Z.log2 y)) as [|f] eqn:Hf; [lia|].
    cbn [str_digits]. cbv zeta.
    assert (Hshape : exists pre,
      (if y / 10 <? 10
       then [digit_char ((y / 10) mod 10); digit_char (y mod 10)]
       else str_digits f (y / 10 / 10)
              [digit_char ((y / 10) mod 10); digit_char (y mod 10)])
      = pre ++ [digit_char ((y / 10) mod 10); digit_char (y mod 10)]).
    { destruct (y / 10 <? 10).
      - exists []. reflexivity.
      - eexists. apply str_digits_acc. }
    destruct Hshape as [pre ->]. rewrite last2_app2.
    rewrite int_digit_first by (apply digit_char_is_digit; exact H1).
    cbn [int_unsigned int_digits].
    rewrite !digit_val_char by assumption. f_equal.
    pose proof (Z.div_mod y 10 ltac:(lia)) as Ey.
    pose proof (Z.div_mod (y / 10) 10 ltac:(lia)) as Ey'.
    apply (Z.mod_unique_pos y 100 (y / 10 / 10)); lia.
Qed.

(** ** Reading the time, in general *)

(** What [datetime()] does on any chip: one 7-byte read, one status read,
    the decoded tuple, and the warning when the status read has bit 7. *)
Lemma datetime_get_run (s : state) :
  wf s ->
  datetime None s =
    (Ok (VTuple [bcdtodec (regs s 6) + 2000;
                 bcdtodec (Z.land (regs s 5) 0x7F);
                 bcdtodec (regs s 4); bcdtodec (regs s 3);
                 decode_hour (regs s 2);
                 bcdtodec (regs s 1); bcdtodec (regs s 0); 0]),
     mkState (regs s)
       (traffic s ++ [BusRead (addr s) DATETIME_REG 7;
                      BusRead (addr s) STATUS_REG 1])
       (addr s) (map (regs s) [0; 1; 2; 3; 4; 5; 6])
       (_buf s) (_al1_buf s) (_al2buf s)
       (console s ++ (if truthy (Z.land (regs s STATUS_REG) 0x80)
                      then [osf_warning] else []))).
Proof.
  intros Hwf. open_state s Hwf. run.
  destruct (truthy (Z.land (rg STATUS_REG) 128)); run;
    rewrite <- ?app_assoc, ?app_nil_r; reflexivity.
Qed.

(** Decoding the register images of valid fields. *)
Lemma decode_encoded (n : Z) :
  0 <= n <= 99 ->
  bcdtodec (dectobcd n) = n /\
  (n <= 79 ->
   bcdtodec (Z.land (dectobcd n) 0x7F) = n /\
   bcdtodec (Z.land (Z.lor (dectobcd n) 0x80) 0x7F) = n) /\
  (n <= 23 -> decode_hour (dectobcd n) = n) /\
  (1 <= n <= 11 ->
   decode_hour (Z.lor (dectobcd n) 0x40) = n /\
   decode_hour (Z.lor (dectobcd n) 0x60) = n + 12).
Proof.
  intros Hn.
  pose proof (all_below_spec 100
    (fun n =>
       (bcdtodec (dectobcd n) =? n) &&
       implb (n <=? 79)
         ((bcdtodec (Z.land (dectobcd n) 0x7F) =? n) &&
          (bcdtodec (Z.land (Z.lor (dectobcd n) 0x80) 0x7F) =? n)) &&
       implb (n <=? 23) (decode_hour (dectobcd n) =? n) &&
       implb ((1 <=? n) && (n <=? 11))
         ((decode_hour (Z.lor (dectobcd n) 0x40) =? n) &&
          (decode_hour (Z.lor (dectobcd n) 0x60) =? n + 12)))) as H.
  specialize (H ltac:(vm_compute; reflexivity) n ltac:(lia)). cbv beta in H.
  repeat (apply andb_prop in H; destruct H as [H ?]).
  split; [apply Z.eqb_eq; assumption|].
  split; [|split].
  - intros Hle. apply Z.leb_le in Hle.
    match goal with
    | Hi : implb (n <=? 79) _ = true |- _ =>
        rewrite Hle in Hi; simpl in Hi; apply andb_prop in Hi;
        destruct Hi as [Ha Hb]
    end.
    split; apply Z.eqb_eq; assumption.
  - intros Hle. apply Z.leb_le in Hle.
    match goal with
    | Hi : implb (n <=? 23) _ = true |- _ =>
        rewrite Hle in Hi; simpl in Hi; apply Z.eqb_eq; exact Hi
    end.
  - intros [Hlo Hhi]. apply Z.leb_le in Hlo, Hhi.
    match goal with
    | Hi : implb (_ && _) _ = true |- _ =>
        rewrite Hlo, Hhi in Hi; simpl in Hi; apply andb_prop in Hi;
        destruct Hi as [Ha Hb]
    end.
    split; apply Z.eqb_eq; assumption.
Qed.

(** On a chip in 24-hour mode whose time registers hold the BCD of a valid
    time, [datetime()] returns that time with the year in 2000-2099,
    whatever the century bit of the month register; it issues two reads and
    changes no register. *)
Theorem datetime_get_valid (s : state) (yy mo d wd h mi sec : Z)
    (century : bool) :
  wf s ->
  0 <= yy <= 99 -> 1 <= mo <= 12 -> 1 <= d <= 31 -> 1 <= wd <= 7 ->
  0 <= h <= 23 -> 0 <= mi <= 59 -> 0 <= sec <= 59 ->
  regs s 0 = dectobcd sec -> regs s 1 = dectobcd mi ->
  regs s 2 = dectobcd h -> regs s 3 = dectobcd wd ->
  regs s 4 = dectobcd d ->
  regs s 5 = Z.lor (dectobcd mo) (if century then 0x80 else 0) ->
  regs s 6 = dectobcd yy ->
  let r := datetime None s in
  fst r = Ok (VTuple [yy + 2000; mo; d; wd; h; mi; sec; 0]) /\
  traffic (snd r) = traffic s ++ [BusRead (addr s) DATETIME_REG 7;
                                  BusRead (addr s) STATUS_REG 1] /\
  regs (snd r) = regs s.
Proof.
  intros Hwf Hyy Hmo Hd Hwd Hh Hmi Hsec E0 E1 E2 E3 E4 E5 E6. cbv zeta.
  rewrite (datetime_get_run s Hwf). cbn [fst snd regs traffic].
  rewrite E0, E1, E2, E3, E4, E5, E6.
  destruct (decode_encoded sec ltac:(lia)) as (-> & _).
  destruct (decode_encoded mi ltac:(lia)) as (-> & _).
  destruct (decode_encoded wd ltac:(lia)) as (-> & _).
  destruct (decode_encoded d ltac:(lia)) as (-> & _).
  destruct (decode_encoded yy ltac:(lia)) as (-> & _).
  destruct (decode_encoded h ltac:(lia)) as (_ & _ & -> & _); [|lia].
  destruct (decode_encoded mo ltac:(lia)) as (_ & Hm & _).
  destruct (Hm ltac:(lia)) as [Hm0 Hm1].
  destruct century.
  - rewrite Hm1. repeat split.
  - rewrite Z.lor_0_r, Hm0. repeat split.
Qed.

Lemma datetime_get_valid_witness :
  let s := __init__ (chip_time [0x45; 0x30; 0x10; 0x04; 0x15; 0x86; 0x23] 0 0)
                    0x68 in
  wf s /\
  fst (datetime None s) = Ok (VTuple [2023; 6; 15; 4; 10; 30; 45; 0]).
Proof.
  cbv zeta. split; [apply init_wf|].
  apply (datetime_get_valid _ 23 6 15 4 10 30 45 true (init_wf _ _));
    try lia; reflexivity.
Defined.

(** In 12-hour mode with BCD hour 1-11, [datetime()] returns the hour for
    AM and the hour plus 12 for PM. *)
Theorem datetime_get_12h (s : state) (h : Z) (pm : bool) :
  wf s -> 1 <= h <= 11 ->
  regs s 2 = Z.lor (dectobcd h) (if pm then 0x60 else 0x40) ->
  exists y mo d wd mi sec,
    fst (datetime None s)
      = Ok (VTuple [y; mo; d; wd; if pm then h + 12 else h; mi; sec; 0]).
Proof.
  intros Hwf Hh E2. rewrite (datetime_get_run s Hwf). cbn [fst].
  rewrite E2.
  destruct (decode_encoded h ltac:(lia)) as (_ & _ & _ & H12).
  destruct (H12 Hh) as [Ham Hpm].
  do 6 eexists. destruct pm; [rewrite Hpm | rewrite Ham]; reflexivity.
Qed.

Lemma datetime_get_12h_witness :
  let s := __init__ (chip_time [0x00; 0x30; 0x63; 0x04; 0x15; 0x06; 0x23] 0 0)
                    0x68 in
  wf s /\ 1 <= 3 <= 11 /\
  regs s 2 = Z.lor (dectobcd 3) 0x60 /\
  exists y mo d wd mi sec,
    fst (datetime None s) = Ok (VTuple [y; mo; d; wd; 3 + 12; mi; sec; 0]).
Proof.
  cbv zeta. split; [apply init_wf|]. split; [lia|]. split; [reflexivity|].
  exact (datetime_get_12h
           (__init__ (chip_time [0x00; 0x30; 0x63; 0x04; 0x15; 0x06; 0x23]
                                0 0) 0x68)
           3 true (init_wf _ _) ltac:(lia) eq_refl).
Defined.

(** The status test [status & 0x80] reads bit 7, [status & (1 << 2)] reads
    bit 2. *)
Lemma status_bits_byte (st : Z) :
  is_byte st ->
  truthy (Z.land st 0x80) = Z.testbit st 7 /\
  truthy (Z.land st (Z.shiftl 1 2)) = Z.testbit st 2.
Proof.
  intros Hst.
  pose proof (byte_cases
    (fun st => Bool.eqb (truthy (Z.land st 0x80)) (Z.testbit st 7) &&
               Bool.eqb (truthy (Z.land st (Z.shiftl 1 2))) (Z.testbit st 2)))
    as H.
  specialize (H ltac:(vm_compute; reflexivity) st Hst). cbv beta in H.
  apply andb_prop in H. destruct H as [H7 H2].
  split; apply Bool.eqb_prop; assumption.
Qed.

(** [datetime()] prints the oscillator warning exactly when bit 7 of the
    status register is set; it returns a tuple either way and leaves the flag
    as it is. *)
Theorem datetime_get_warning (s : state) :
  wf s -> is_byte (regs s STATUS_REG) ->
  let r := datetime None s in
  (exists t, fst r = Ok (VTuple t)) /\
  console (snd r) =
    console s ++ (if Z.testbit (regs s STATUS_REG) 7
                  then [osf_warning] else []) /\
  regs (snd r) STATUS_REG = regs s STATUS_REG.
Proof.
  intros Hwf Hst. cbv zeta. rewrite (datetime_get_run s Hwf).
  cbn [fst snd regs console].
  destruct (status_bits_byte _ Hst) as [-> _].
  split; [eexists; reflexivity|]. split; reflexivity.
Qed.

Lemma datetime_get_warning_witness :
  let s := __init__ (chip_time [0x45; 0x30; 0x10; 0x04; 0x15; 0x06; 0x23]
                               0 0x80) 0x68 in
  wf s /\ is_byte (regs s STATUS_REG) /\
  console (snd (datetime None s)) = [osf_warning] /\
  fst (datetime None s) = Ok (VTuple [2023; 6; 15; 4; 10; 30; 45; 0]).
Proof.
  cbv zeta.
  assert (Hwf : wf (__init__ (chip_time [0x45; 0x30; 0x10; 0x04; 0x15; 0x06;
                                          0x23] 0 0x80) 0x68))
    by apply init_wf.
  assert (Hb : is_byte (regs (__init__ (chip_time [0x45; 0x30; 0x10; 0x04;
                                          0x15; 0x06; 0x23] 0 0x80) 0x68)
                             STATUS_REG))
    by (apply is_byte_intro; reflexivity).
  destruct (datetime_get_warning _ Hwf Hb) as (_ & Hc & _).
  split; [exact Hwf|]. split; [exact Hb|]. split; [exact Hc | reflexivity].
Defined.

(** ** Setting the time, in general *)

(** The state [datetime(dt)] leaves is well formed. *)
Lemma datetime_set_wf (s : state) (dt : list Z) :
  wf s -> wf (snd (datetime (Some dt) s)).
Proof.
  intros Hwf.
  destruct (Nat.lt_ge_cases (List.length dt) 5) as [Hshort|Hlong].
  - assert (Hs := Hwf). open_state s Hs.
    destruct dt as [|y [|mo [|d [|h [|mi rest]]]]]; simpl in Hshort; try lia;
      run; repeat split.
  - destruct dt as [|y [|mo [|d [|h [|mi rest]]]]]; simpl in Hlong; try lia.
    destruct (year_total y) as [yy Hyy].
    rewrite (datetime_set_run s y mo d h mi rest yy Hwf Hyy).
    destruct Hwf as (_ & _ & H1 & H2). repeat split; assumption.
Qed.

(** Only the last two decimal digits of the year count: for every year that
    is not negative, [datetime(dt)] stores the BCD of the year modulo 100,
    and the following [datetime()] returns 2000 plus the year modulo 100. *)
Theorem datetime_year_digits (s : state) (y mo d h mi : Z) (rest : list Z) :
  wf s -> 0 <= y ->
  let r := datetime (Some (y :: mo :: d :: h :: mi :: rest)) s in
  fst r = Ok (VBool true) /\
  regs (snd r) 6 = dectobcd (y mod 100) /\
  exists t, fst (datetime None (snd r)) = Ok (VTuple (y mod 100 + 2000 :: t)).
Proof.
  intros Hwf Hy. cbv zeta.
  pose proof (datetime_set_wf s (y :: mo :: d :: h :: mi :: rest) Hwf) as Hwf'.
  rewrite (datetime_get_run _ Hwf').
  rewrite (datetime_set_run s y mo d h mi rest (y mod 100) Hwf
             (year_last_two_digits y Hy)).
  assert (Hm : 0 <= y mod 100 < 100) by (apply Z.mod_pos_bound; lia).
  run. rewrite (dectobcd_fits (y mod 100)) by lia.
  destruct (decode_encoded (y mod 100) ltac:(lia)) as (-> & _).
  split; [reflexivity|]. split; [reflexivity|]. eexists. reflexivity.
Qed.

Lemma datetime_year_digits_witness :
  let s := __init__ (chip_ctrl_status 0 0) 0x68 in
  wf s /\ 0 <= 23 /\
  regs (snd (datetime (Some [23; 6; 15; 10; 30]) s)) 6 = 0x23 /\
  regs (snd (datetime (Some [2023; 6; 15; 10; 30]) s)) 6 = 0x23 /\
  regs (snd (datetime (Some [1923; 6; 15; 10; 30]) s)) 6 = 0x23.
Proof.
  cbv zeta.
  assert (Hwf : wf (__init__ (chip_ctrl_status 0 0) 0x68)) by apply init_wf.
  destruct (datetime_year_digits _ 23 6 15 10 30 [] Hwf ltac:(lia))
    as (_ & H23 & _).
  destruct (datetime_year_digits _ 2023 6 15 10 30 [] Hwf ltac:(lia))
    as (_ & H2023 & _).
  destruct (datetime_year_digits _ 1923 6 15 10 30 [] Hwf ltac:(lia))
    as (_ & H1923 & _).
  split; [exact Hwf|]. split; [lia|].
  split; [exact H23|]. split; [exact H2023 | exact H1923].
Defined.

(** Second and weekday are optional: a 5-field tuple is stored with second
    0 and weekday 0, a 6-field tuple with weekday 0, and [datetime()] reads
    them back so. *)
Theorem datetime_optional_fields (s : state) (y mo d h mi sec : Z) :
  wf s ->
  2000 <= y <= 2099 -> 1 <= mo <= 12 -> 1 <= d <= 31 ->
  0 <= h <= 23 -> 0 <= mi <= 59 -> 0 <= sec <= 59 ->
  let r5 := datetime (Some [y; mo; d; h; mi]) s in
  let r6 := datetime (Some [y; mo; d; h; mi; sec]) s in
  fst r5 = Ok (VBool true) /\
  fst (datetime None (snd r5)) = Ok (VTuple [y; mo; d; 0; h; mi; 0; 0]) /\
  fst r6 = Ok (VBool true) /\
  fst (datetime None (snd r6)) = Ok (VTuple [y; mo; d; 0; h; mi; sec; 0]).
Proof.
  intros Hwf Hy Hmo Hd Hh Hmi Hsec. cbv zeta.
  pose proof (datetime_set_wf s [y; mo; d; h; mi] Hwf) as Hwf5.
  pose proof (datetime_set_wf s [y; mo; d; h; mi; sec] Hwf) as Hwf6.
  rewrite (datetime_get_run _ Hwf5), (datetime_get_run _ Hwf6).
  rewrite (datetime_set_run s y mo d h mi [] (y - 2000) Hwf (year_2000s y Hy)).
  rewrite (datetime_set_run s y mo d h mi [sec] (y - 2000) Hwf
             (year_2000s y Hy)).
  run.
  destruct (field_roundtrip sec ltac:(lia)) as (-> & _ & _).
  destruct (field_roundtrip mi ltac:(lia)) as (-> & _ & _).
  destruct (field_roundtrip h ltac:(lia)) as (_ & _ & ->); [|lia].
  destruct (field_roundtrip d ltac:(lia)) as (-> & _ & _).
  destruct (field_roundtrip mo ltac:(lia)) as (_ & -> & _); [|lia].
  destruct (field_roundtrip (y - 2000) ltac:(lia)) as (-> & _ & _).
  replace (y - 2000 + 2000) with y by lia.
  repeat split.
Qed.

Lemma datetime_optional_fields_witness :
  let s := __init__ (chip_time [0x45; 0x30; 0x10; 0x04; 0x15; 0x06; 0x23] 0 0)
                    0x68 in
  wf s /\
  fst (datetime None (snd (datetime (Some [2024; 2; 29; 23; 59]) s)))
    = Ok (VTuple [2024; 2; 29; 0; 23; 59; 0; 0]).
Proof.
  cbv zeta. split; [apply init_wf|].
  apply (datetime_optional_fields _ 2024 2 29 23 59 0 (init_wf _ _)); lia.
Defined.

(** [datetime(dt)] writes the time registers 0-6 and the status register
    15 and no other register. *)
Theorem datetime_set_frame (s : state) (dt : list Z) (r : Z) :
  wf s -> r < 0 \/ 7 <= r -> r <> 15 ->
  regs (snd (datetime (Some dt) s)) r = regs s r.
Proof.
  intros Hwf Hr H15.
  destruct (Nat.lt_ge_cases (List.length dt) 5) as [Hshort|Hlong].
  - destruct (datetime_short_tuple s dt Hwf Hshort) as (_ & _ & ->).
    reflexivity.
  - destruct dt as [|y [|mo [|d [|h [|mi rest]]]]]; simpl in Hlong; try lia.
    destruct (year_total y) as [yy Hyy].
    rewrite (datetime_set_run s y mo d h mi rest yy Hwf Hyy).
    run.
    repeat match goal with
           | |- context [?a =? ?b] =>
               destruct (Z.eqb_spec a b); [unfold STATUS_REG, DATETIME_REG in *; lia|]
           end.
    reflexivity.
Qed.

Lemma datetime_set_frame_witness :
  let s := __init__ (chip_ctrl_status 0x1B 0x83) 0x68 in
  wf s /\ (14 < 0 \/ 7 <= 14) /\ 14 <> 15 /\
  regs (snd (datetime (Some [2023; 6; 15; 10; 30; 45; 4]) s)) 14 = 0x1B.
Proof.
  cbv zeta.
  assert (Hwf : wf (__init__ (chip_ctrl_status 0x1B 0x83) 0x68))
    by apply init_wf.
  split; [exact Hwf|]. split; [right; lia|]. split; [lia|].
  rewrite (datetime_set_frame _ [2023; 6; 15; 10; 30; 45; 4] 14 Hwf
             ltac:(right; lia) ltac:(lia)).
  reflexivity.
Defined.

(** The tuple [datetime()] returns is not in the order [datetime(dt)]
    reads: written back as it is, its weekday becomes the hour, its hour the
    minute, its minute the second and its second the weekday. *)
Theorem datetime_write_back_shifts (s : state) (y mo d wd h mi sec : Z) :
  wf s ->
  2000 <= y <= 2099 -> 1 <= mo <= 12 -> 1 <= d <= 31 -> 1 <= wd <= 7 ->
  0 <= h <= 23 -> 0 <= mi <= 59 -> 0 <= sec <= 59 ->
  let r := datetime (Some [y; mo; d; wd; h; mi; sec; 0]) s in
  fst r = Ok (VBool true) /\
  fst (datetime None (snd r)) = Ok (VTuple [y; mo; d; sec; wd; h; mi; 0]).
Proof.
  intros Hwf Hy Hmo Hd Hwd Hh Hmi Hsec. cbv zeta.
  pose proof (datetime_set_wf s [y; mo; d; wd; h; mi; sec; 0] Hwf) as Hwf'.
  rewrite (datetime_get_run _ Hwf').
  rewrite (datetime_set_run s y mo d wd h [mi; sec; 0] (y - 2000) Hwf
             (year_2000s y Hy)).
  run.
  destruct (field_roundtrip sec ltac:(lia)) as (-> & _ & _).
  destruct (field_roundtrip mi ltac:(lia)) as (-> & _ & _).
  destruct (field_roundtrip h ltac:(lia)) as (-> & _ & _).
  destruct (field_roundtrip wd ltac:(lia)) as (_ & _ & ->); [|lia].
  destruct (field_roundtrip d ltac:(lia)) as (-> & _ & _).
  destruct (field_roundtrip mo ltac:(lia)) as (_ & -> & _); [|lia].
  destruct (field_roundtrip (y - 2000) ltac:(lia)) as (-> & _ & _).
  replace (y - 2000 + 2000) with y by lia.
  repeat split.
Qed.

Lemma datetime_write_back_shifts_witness :
  let s := __init__ (chip_ctrl_status 0 0) 0x68 in
  wf s /\
  fst (datetime None
         (snd (datetime (Some [2023; 6; 15; 4; 10; 30; 45; 0]) s)))
    = Ok (VTuple [2023; 6; 15; 45; 4; 10; 30; 0]).
Proof.
  cbv zeta. split; [apply init_wf|].
  apply (datetime_write_back_shifts _ 2023 6 15 4 10 30 45 (init_wf _ _)); lia.
Defined.

(** ** Bits of a byte *)

(** Two bytes that agree under a mask agree on every bit of the mask (and,
    being bytes, on every bit outside 0-7). *)
Lemma byte_bits_ext (a b m i : Z) :
  is_byte a -> is_byte b -> Z.land a m = Z.land b m ->
  i < 0 \/ 8 <= i \/ Z.testbit m i = true ->
  Z.testbit a i = Z.testbit b i.
Proof.
  intros Ha Hb Hm [Hneg | [Hhigh | Hbit]].
  - rewrite !Z.testbit_neg_r by lia. reflexivity.
  - rewrite <- (Z.mod_small a (2 ^ 8)), <- (Z.mod_small b (2 ^ 8))
      by (unfold is_byte in *; simpl; lia).
    rewrite !Z.mod_pow2_bits_high by lia. reflexivity.
  - apply (f_equal (fun x => Z.testbit x i)) in Hm.
    rewrite !Z.land_spec, Hbit, !andb_true_r in Hm. exact Hm.
Qed.

(** ** Square-wave output, enabled *)

Lemma square_wave_enable_byte (ctrl freq : Z) :
  is_byte ctrl -> 1 <= freq <= 4 ->
  let new := byte_of (Z.lor (Z.land ctrl 0xE3) (Z.shiftl (freq - 1) 3)) in
  is_byte new /\ Z.testbit new 2 = false /\
  Z.land (Z.shiftr new 3) 3 = freq - 1 /\
  Z.land new 0xE3 = Z.land ctrl 0xE3.
Proof.
  intros Hc Hf. cbv zeta.
  pose proof (byte_cases
    (fun c => forallb (fun f =>
       let new := byte_of (Z.lor (Z.land c 0xE3) (Z.shiftl (f - 1) 3)) in
       (0 <=? new) && (new <? 256) && negb (Z.testbit new 2) &&
       (Z.land (Z.shiftr new 3) 3 =? f - 1) &&
       (Z.land new 0xE3 =? Z.land c 0xE3)) [1; 2; 3; 4])) as H.
  specialize (H ltac:(vm_compute; reflexivity) ctrl Hc). cbv beta in H.
  rewrite forallb_forall in H.
  assert (Hin : In freq [1; 2; 3; 4]) by (simpl; lia).
  specialize (H freq Hin). cbv zeta in H.
  repeat (apply andb_prop in H; destruct H as [H ?]).
  unfold is_byte.
  split; [lia|]. split; [apply negb_true_iff; assumption|].
  split; apply Z.eqb_eq; assumption.
Qed.

(** [square_wave(freq)] for freq 1-4 reads the control byte and writes back
    a byte with INTCN (bit 2) 0 and the selector freq-1 in bits 4:3, every
    other bit as it was; it returns [True], and [square_wave()] then returns
    the byte written. *)
Theorem square_wave_enable_spec (s : state) (freq : Z) :
  wf s -> is_byte (regs s CONTROL_REG) -> 1 <= freq <= 4 ->
  let ctrl := regs s CONTROL_REG in
  let r := square_wave (Some freq) s in
  exists new,
    fst r = Ok (VBool true) /\
    traffic (snd r) =
      traffic s ++ [BusRead (addr s) CONTROL_REG 1;
                    BusWrite (addr s) CONTROL_REG [new]] /\
    regs (snd r) CONTROL_REG = new /\
    Z.testbit new 2 = false /\
    Z.land (Z.shiftr new 3) 3 = freq - 1 /\
    (forall i, i <> 2 -> i <> 3 -> i <> 4 ->
               Z.testbit new i = Z.testbit ctrl i) /\
    fst (square_wave None (snd r)) = Ok (VInt new).
Proof.
  intros Hwf Hc Hf. open_state s Hwf. run in Hc.
  destruct (square_wave_enable_byte _ freq Hc Hf) as (Hb & H2 & Hsel & Hmask).
  assert (Ht : truthy freq = true).
  { unfold truthy. destruct (Z.eqb_spec freq 0); [lia | reflexivity]. }
  cbv zeta. unfold square_wave at 1 2. run. rewrite Ht. run.
  change (rg 14) with (rg CONTROL_REG).
  eexists. rewrite <- app_assoc.
  split; [reflexivity|]. split; [reflexivity|]. split; [reflexivity|].
  split; [exact H2|]. split; [exact Hsel|]. split; [|reflexivity].
  intros i Hi2 Hi3 Hi4.
  apply (byte_bits_ext _ _ 0xE3); try assumption.
  destruct (Z.lt_ge_cases i 0) as [Hn|Hp]; [left; exact Hn|].
  destruct (Z.lt_ge_cases i 8) as [Hl|Hh]; [|right; left; exact Hh].
  right; right.
  assert (Hcases : i = 0 \/ i = 1 \/ i = 5 \/ i = 6 \/ i = 7) by lia.
  destruct Hcases as [-> | [-> | [-> | [-> | ->]]]]; reflexivity.
Qed.

Lemma square_wave_enable_spec_witness :
  let s := __init__ (chip_ctrl_status 0x07 0) 0x68 in
  wf s /\ is_byte (regs s CONTROL_REG) /\ 1 <= 3 <= 4 /\
  regs (snd (square_wave (Some 3) s)) CONTROL_REG = 0x13 /\
  exists new,
    fst (square_wave None (snd (square_wave (Some 3) s))) = Ok (VInt new) /\
    Z.testbit new 2 = false.
Proof.
  cbv zeta.
  assert (Hwf : wf (__init__ (chip_ctrl_status 0x07 0) 0x68)) by apply init_wf.
  assert (Hb : is_byte (regs (__init__ (chip_ctrl_status 0x07 0) 0x68) CONTROL_REG))
    by (apply is_byte_intro; reflexivity).
  destruct (square_wave_enable_spec _ 3 Hwf Hb ltac:(lia))
    as (new & _ & _ & _ & H2 & _ & _ & Hget).
  split; [exact Hwf|]. split; [exact Hb|]. split; [lia|].
  split; [reflexivity|]. exists new. split; [exact Hget | exact H2].
Defined.

(** ** The reading methods *)

(** The argument-less calls and the two flag readers change no register,
    and every bus transaction they issue is a read. *)
Theorem getters_read_only (s : state) :
  wf s ->
  (regs (snd (datetime None s)) = regs s /\
   exists ops, traffic (snd (datetime None s)) = traffic s ++ ops /\
               forallb is_read ops = true) /\
  (regs (snd (square_wave None s)) = regs s /\
   exists ops, traffic (snd (square_wave None s)) = traffic s ++ ops /\
               forallb is_read ops = true) /\
  (regs (snd (alarm1 None 0 true false s)) = regs s /\
   exists ops, traffic (snd (alarm1 None 0 true false s)) = traffic s ++ ops /\
               forallb is_read ops = true) /\
  (regs (snd (alarm2 None 0 true false s)) = regs s /\
   exists ops, traffic (snd (alarm2 None 0 true false s)) = traffic s ++ ops /\
               forallb is_read ops = true) /\
  (regs (snd (OSF s)) = regs s /\
   exists ops, traffic (snd (OSF s)) = traffic s ++ ops /\
               forallb is_read ops = true) /\
  (regs (snd (_is_busy s)) = regs s /\
   exists ops, traffic (snd (_is_busy s)) = traffic s ++ ops /\
               forallb is_read ops = true).
Proof.
  intros Hwf. split.
  { rewrite (datetime_get_run s Hwf). cbn [snd regs traffic].
    split; [reflexivity | eexists; split; reflexivity]. }
  open_state s Hwf. run.
  repeat split; eexists; split; reflexivity.
Qed.

Lemma getters_read_only_witness :
  let s := __init__ (chip_ctrl_status 0x1C 0x88) 0x68 in
  wf s /\ regs (snd (OSF s)) = regs s /\
  traffic (snd (square_wave None s)) = [BusRead 0x68 CONTROL_REG 1].
Proof.
  cbv zeta.
  assert (Hwf : wf (__init__ (chip_ctrl_status 0x1C 0x88) 0x68))
    by apply init_wf.
  destruct (getters_read_only _ Hwf) as (_ & _ & _ & _ & (Hosf & _) & _).
  split; [exact Hwf|]. split; [exact Hosf | reflexivity].
Defined.

(** The alarm readers return the alarm registers: [alarm1()] the four
    registers from 7 with one 4-byte read, [alarm2()] the three registers
    from 11 with one 3-byte read; [square_wave()] returns the control
    register. *)
Theorem getters_return_registers (s : state) :
  wf s ->
  fst (alarm1 None 0 true false s)
    = Ok [regs s 7; regs s 8; regs s 9; regs s 10] /\
  traffic (snd (alarm1 None 0 true false s))
    = traffic s ++ [BusRead (addr s) ALARM1_REG 4] /\
  fst (alarm2 None 0 true false s) = Ok [regs s 11; regs s 12; regs s 13] /\
  traffic (snd (alarm2 None 0 true false s))
    = traffic s ++ [BusRead (addr s) ALARM2_REG 3] /\
  fst (square_wave None s) = Ok (VInt (regs s CONTROL_REG)).
Proof.
  intros Hwf. open_state s Hwf. run. repeat split.
Qed.

Lemma getters_return_registers_witness :
  let s := __init__ (chip_of [0; 0; 0; 0; 0; 0; 0; 0x30; 0x80; 0x80; 0x80;
                              0x15; 0x07; 0x81; 0x1C; 0]) 0x68 in
  wf s /\
  fst (alarm1 None 0 true false s) = Ok [0x30; 0x80; 0x80; 0x80] /\
  fst (alarm2 None 0 true false s) = Ok [0x15; 0x07; 0x81].
Proof.
  cbv zeta.
  assert (Hwf : wf (__init__ (chip_of [0; 0; 0; 0; 0; 0; 0; 0x30; 0x80; 0x80;
                                       0x80; 0x15; 0x07; 0x81; 0x1C; 0]) 0x68))
    by apply init_wf.
  destruct (getters_return_registers _ Hwf) as (H1 & _ & H2 & _).
  split; [exact Hwf|]. split; [exact H1 | exact H2].
Defined.

(** [OSF()] returns bit 7 of the status register and [_is_busy()] bit 2. *)
Theorem status_flag_readers (s : state) :
  wf s -> is_byte (regs s STATUS_REG) ->
  fst (OSF s) = Ok (Z.testbit (regs s STATUS_REG) 7) /\
  fst (_is_busy s) = Ok (Z.testbit (regs s STATUS_REG) 2).
Proof.
  intros Hwf Hst. destruct (status_bits_byte _ Hst) as [H7 H2].
  open_state s Hwf. run. run in H7. run in H2.
  change (rg 15) with (rg STATUS_REG). rewrite H7, H2. split; reflexivity.
Qed.

Lemma status_flag_readers_witness :
  let s := __init__ (chip_ctrl_status 0 0x84) 0x68 in
  wf s /\ is_byte (regs s STATUS_REG) /\
  fst (OSF s) = Ok true /\ fst (_is_busy s) = Ok true.
Proof.
  cbv zeta.
  assert (Hwf : wf (__init__ (chip_ctrl_status 0 0x84) 0x68)) by apply init_wf.
  assert (Hb : is_byte (regs (__init__ (chip_ctrl_status 0 0x84) 0x68) STATUS_REG))
    by (apply is_byte_intro; reflexivity).
  destruct (status_flag_readers _ Hwf Hb) as [H7 H2].
  split; [exact Hwf|]. split; [exact Hb|]. split; [exact H7 | exact H2].
Defined.

(** ** The 32 kHz output bit *)

(** [output_32kHz(enable)] reads the status byte and writes it back with
    bit 3 equal to [enable] and every other bit as it was. *)
Theorem output_32kHz_spec (s : state) (enable : bool) :
  wf s -> is_byte (regs s STATUS_REG) ->
  let st := regs s STATUS_REG in
  let r := output_32kHz enable s in
  exists new,
    fst r = Ok tt /\
    traffic (snd r) =
      traffic s ++ [BusRead (addr s) STATUS_REG 1;
                    BusWrite (addr s) STATUS_REG [new]] /\
    regs (snd r) STATUS_REG = new /\
    Z.testbit new 3 = enable /\
    (forall i, i <> 3 -> Z.testbit new i = Z.testbit st i).
Proof.
  intros Hwf Hst.
  pose proof (byte_cases
    (fun st =>
       (byte_of (Z.lor st (Z.shiftl 1 3)) =? Z.setbit st 3) &&
       (byte_of (Z.land st (Z.lnot (Z.shiftl 1 3))) =? Z.clearbit st 3)))
    as H.
  specialize (H ltac:(vm_compute; reflexivity) _ Hst). cbv beta in H.
  apply andb_prop in H. destruct H as [Hon Hoff].
  apply Z.eqb_eq in Hon, Hoff.
  open_state s Hwf. run in Hon. run in Hoff.
  destruct enable; run; change (rg 15) with (rg STATUS_REG);
    [rewrite Hon | rewrite Hoff]; rewrite <- app_assoc;
    eexists; (split; [reflexivity|]); (split; [reflexivity|]);
    (split; [reflexivity|]); split.
  - apply Z.setbit_eq. lia.
  - intros i Hi. apply Z.setbit_neq; lia.
  - apply Z.clearbit_eq.
  - intros i Hi. apply Z.clearbit_neq. lia.
Qed.

Lemma output_32kHz_spec_witness :
  let s := __init__ (chip_ctrl_status 0 0x83) 0x68 in
  wf s /\ is_byte (regs s STATUS_REG) /\
  regs (snd (output_32kHz true s)) STATUS_REG = 0x8B /\
  exists new, regs (snd (output_32kHz false s)) STATUS_REG = new /\
              Z.testbit new 3 = false.
Proof.
  cbv zeta.
  assert (Hwf : wf (__init__ (chip_ctrl_status 0 0x83) 0x68)) by apply init_wf.
  assert (Hb : is_byte (regs (__init__ (chip_ctrl_status 0 0x83) 0x68) STATUS_REG))
    by (apply is_byte_intro; reflexivity).
  destruct (output_32kHz_spec _ false Hwf Hb) as (new & _ & _ & Hr & H3 & _).
  split; [exact Hwf|]. split; [exact Hb|]. split; [reflexivity|].
  exists new. split; [exact Hr | exact H3].
Defined.

(** ** Alarm interrupts, the remaining cases *)

Lemma alarm_int_both_byte (ctrl : Z) :
  is_byte ctrl ->
  byte_of (Z.lor (Z.land (byte_of (Z.lor (Z.land ctrl 0xFA) 0x05)) 0xF9) 0x06)
    = Z.setbit (Z.setbit (Z.setbit ctrl 0) 1) 2 /\
  byte_of (Z.land (byte_of (Z.land ctrl 0xFD)) 0xFB)
    = Z.clearbit (Z.clearbit ctrl 1) 2.
Proof.
  intros Hc.
  pose proof (byte_cases
    (fun c =>
       (byte_of (Z.lor (Z.land (byte_of (Z.lor (Z.land c 0xFA) 0x05)) 0xF9)
                       0x06)
          =? Z.setbit (Z.setbit (Z.setbit c 0) 1) 2) &&
       (byte_of (Z.land (byte_of (Z.land c 0xFD)) 0xFB)
          =? Z.clearbit (Z.clearbit c 1) 2))) as H.
  specialize (H ltac:(vm_compute; reflexivity) ctrl Hc). cbv beta in H.
  apply andb_prop in H. destruct H as [Hon Hoff].
  split; apply Z.eqb_eq; assumption.
Qed.

(** [alarm_int(enable, alarm=0)] runs two read-modify-write cycles and a
    final read.  Enabling leaves bits 0, 1 and 2 of the control byte set;
    disabling leaves bits 1 and 2 cleared and bit 0 as it was; every other
    bit is unchanged, and the call returns the resulting byte. *)
Theorem alarm_int_both (s : state) (enable : bool) :
  wf s -> is_byte (regs s CONTROL_REG) ->
  let ctrl := regs s CONTROL_REG in
  let r := alarm_int enable 0 s in
  exists mid new,
    fst r = Ok [new] /\
    traffic (snd r) =
      traffic s ++ [BusRead (addr s) CONTROL_REG 1;
                    BusWrite (addr s) CONTROL_REG [mid];
                    BusRead (addr s) CONTROL_REG 1;
                    BusWrite (addr s) CONTROL_REG [new];
                    BusRead (addr s) CONTROL_REG 1] /\
    regs (snd r) CONTROL_REG = new /\
    (if enable
     then Z.testbit new 0 = true /\ Z.testbit new 1 = true /\
          Z.testbit new 2 = true /\
          (forall i, i <> 0 -> i <> 1 -> i <> 2 ->
                     Z.testbit new i = Z.testbit ctrl i)
     else Z.testbit new 1 = false /\ Z.testbit new 2 = false /\
          (forall i, i <> 1 -> i <> 2 ->
                     Z.testbit new i = Z.testbit ctrl i)).
Proof.
  intros Hwf Hc. open_state s Hwf. run in Hc.
  destruct (alarm_int_both_byte _ Hc) as [Hon Hoff].
  destruct enable; run; change (rg 14) with (rg CONTROL_REG);
    [rewrite Hon | rewrite Hoff]; rewrite <- !app_assoc;
    do 2 eexists; (split; [reflexivity|]); (split; [reflexivity|]);
    (split; [reflexivity|]).
  - repeat split.
    + rewrite !Z.setbit_neq by lia. apply Z.setbit_eq. lia.
    + rewrite Z.setbit_neq by lia. apply Z.setbit_eq. lia.
    + apply Z.setbit_eq. lia.
    + intros i H0 H1 H2. rewrite !Z.setbit_neq by lia. reflexivity.
  - repeat split.
    + rewrite Z.clearbit_neq by lia. apply Z.clearbit_eq.
    + apply Z.clearbit_eq.
    + intros i H1 H2. rewrite !Z.clearbit_neq by lia. reflexivity.
Qed.

Lemma alarm_int_both_witness :
  let s := __init__ (chip_ctrl_status 0x18 0) 0x68 in
  wf s /\ is_byte (regs s CONTROL_REG) /\
  regs (snd (alarm_int true 0 s)) CONTROL_REG = 0x1F /\
  exists mid new, fst (alarm_int true 0 s) = Ok [new] /\
    traffic (snd (alarm_int true 0 s)) =
      [BusRead 0x68 CONTROL_REG 1; BusWrite 0x68 CONTROL_REG [mid];
       BusRead 0x68 CONTROL_REG 1; BusWrite 0x68 CONTROL_REG [new];
       BusRead 0x68 CONTROL_REG 1].
Proof.
  cbv zeta.
  assert (Hwf : wf (__init__ (chip_ctrl_status 0x18 0) 0x68)) by apply init_wf.
  assert (Hb : is_byte (regs (__init__ (chip_ctrl_status 0x18 0) 0x68) CONTROL_REG))
    by (apply is_byte_intro; reflexivity).
  destruct (alarm_int_both _ true Hwf Hb) as (mid & new & Hr & Ht & _).
  split; [exact Hwf|]. split; [exact Hb|]. split; [reflexivity|].
  exists mid, new. split; [exact Hr | exact Ht].
Defined.

(** With an alarm number other than 0, 1 and 2, [alarm_int] writes nothing:
    it reads the control register once and returns it. *)
Theorem alarm_int_other (s : state) (enable : bool) (alarm : Z) :
  wf s -> alarm <> 0 -> alarm <> 1 -> alarm <> 2 ->
  let r := alarm_int enable alarm s in
  fst r = Ok [regs s CONTROL_REG] /\
  traffic (snd r) = traffic s ++ [BusRead (addr s) CONTROL_REG 1] /\
  regs (snd r) = regs s.
Proof.
  intros Hwf H0 H1 H2. open_state s Hwf. unfold alarm_int.
  apply Z.eqb_neq in H0, H1, H2. rewrite H0, H1, H2. run. repeat split.
Qed.

Lemma alarm_int_other_witness :
  let s := __init__ (chip_ctrl_status 0x1C 0) 0x68 in
  wf s /\ 3 <> 0 /\ 3 <> 1 /\ 3 <> 2 /\
  fst (alarm_int true 3 s) = Ok [0x1C] /\
  traffic (snd (alarm_int true 3 s)) = [BusRead 0x68 CONTROL_REG 1].
Proof.
  cbv zeta.
  assert (Hwf : wf (__init__ (chip_ctrl_status 0x1C 0) 0x68)) by apply init_wf.
  destruct (alarm_int_other _ true 3 Hwf ltac:(lia) ltac:(lia) ltac:(lia))
    as (Hr & Ht & _).
  split; [exact Hwf|]. repeat (split; [lia|]). split; [exact Hr | exact Ht].
Defined.

(** [alarm_int(enable=False, alarm=k)] for k = 1 or 2 reads the control
    byte and writes it back with bit k cleared (bit 1 for alarm 1, bit 2 for
    alarm 2) and every other bit as it was; the bit k-1 that enabling sets
    is among the bits left as they were. *)
Theorem alarm_int_disable_spec (s : state) (alarm : Z) :
  wf s -> is_byte (regs s CONTROL_REG) -> alarm = 1 \/ alarm = 2 ->
  let ctrl := regs s CONTROL_REG in
  let r := alarm_int false alarm s in
  exists new,
    fst r = Ok [new] /\
    traffic (snd r) =
      traffic s ++ [BusRead (addr s) CONTROL_REG 1;
                    BusWrite (addr s) CONTROL_REG [new];
                    BusRead (addr s) CONTROL_REG 1] /\
    regs (snd r) CONTROL_REG = new /\
    Z.testbit new alarm = false /\
    (forall i, i <> alarm -> Z.testbit new i = Z.testbit ctrl i) /\
    Z.testbit new (alarm - 1) = Z.testbit ctrl (alarm - 1).
Proof.
  intros Hwf Hc Halarm. open_state s Hwf. run in Hc.
  destruct (control_byte_ops _ Hc) as (_ & _ & _ & Hoff1 & Hoff2).
  exists (Z.clearbit (rg CONTROL_REG) alarm).
  destruct Halarm as [-> | ->]; run; change (rg 14) with (rg CONTROL_REG);
    [rewrite Hoff1 | rewrite Hoff2]; rewrite <- !app_assoc; run;
    (repeat split;
     [ apply Z.clearbit_eq
     | intros i Hi; apply Z.clearbit_neq; lia
     | apply Z.clearbit_neq; lia ]).
Qed.

Lemma alarm_int_disable_spec_witness :
  let s := __init__ (chip_ctrl_status 0x07 0) 0x68 in
  wf s /\ is_byte (regs s CONTROL_REG) /\ (1 = 1 \/ 1 = 2) /\
  regs (snd (alarm_int false 1 s)) CONTROL_REG = 0x05 /\
  exists new, fst (alarm_int false 1 s) = Ok [new] /\
              Z.testbit new 1 = false.
Proof.
  cbv zeta.
  assert (Hwf : wf (__init__ (chip_ctrl_status 0x07 0) 0x68)) by apply init_wf.
  assert (Hb : is_byte (regs (__init__ (chip_ctrl_status 0x07 0) 0x68) CONTROL_REG))
    by (apply is_byte_intro; reflexivity).
  destruct (alarm_int_disable_spec _ 1 Hwf Hb (or_introl eq_refl))
    as (new & Hr & _ & _ & H1 & _).
  split; [exact Hwf|]. split; [exact Hb|]. split; [left; reflexivity|].
  split; [reflexivity|]. exists new. split; [exact Hr | exact H1].
Defined.

(** ** Which registers a call can change *)

Ltac other_register :=
  repeat match goal with
         | |- context [?a =? ?b] =>
             destruct (Z.eqb_spec a b);
             [unfold CONTROL_REG, STATUS_REG in *; congruence|]
         end;
  reflexivity.

(** [square_wave] and [alarm_int] change no register but the control
    register. *)
Theorem control_ops_frame (s : state) (r : Z) :
  wf s -> r <> CONTROL_REG ->
  (forall freq, regs (snd (square_wave freq s)) r = regs s r) /\
  (forall enable alarm, regs (snd (alarm_int enable alarm s)) r = regs s r).
Proof.
  intros Hwf Hr. open_state s Hwf. split.
  - intros [freq|]; run; [|reflexivity].
    destruct (negb (truthy freq)); other_register.
  - intros enable alarm. unfold alarm_int.
    destruct ((alarm =? 0) || (alarm =? 1)), ((alarm =? 0) || (alarm =? 2));
      run; other_register.
Qed.

Lemma control_ops_frame_witness :
  let s := __init__ (chip_ctrl_status 0x18 0x83) 0x68 in
  wf s /\ STATUS_REG <> CONTROL_REG /\
  regs (snd (square_wave (Some 0) s)) STATUS_REG = 0x83 /\
  regs (snd (alarm_int true 0 s)) STATUS_REG = 0x83.
Proof.
  cbv zeta.
  assert (Hwf : wf (__init__ (chip_ctrl_status 0x18 0x83) 0x68))
    by apply init_wf.
  assert (Hne : STATUS_REG <> CONTROL_REG) by discriminate.
  destruct (control_ops_frame _ STATUS_REG Hwf Hne) as [Hsq Hal].
  split; [exact Hwf|]. split; [exact Hne|].
  split; [rewrite Hsq | rewrite Hal]; reflexivity.
Defined.

(** [check_alarm] and [output_32kHz] change no register but the status
    register. *)
Theorem status_ops_frame (s : state) (r : Z) :
  wf s -> r <> STATUS_REG ->
  (forall alarm, regs (snd (check_alarm alarm s)) r = regs s r) /\
  (forall enable, regs (snd (output_32kHz enable s)) r = regs s r).
Proof.
  intros Hwf Hr. open_state s Hwf. split.
  - intros alarm. run.
    destruct (negb (truthy (Z.land (rg STATUS_REG) alarm))); run;
      other_register.
  - intros enable. run. other_register.
Qed.

Lemma status_ops_frame_witness :
  let s := __init__ (chip_ctrl_status 0x1F 0x83) 0x68 in
  wf s /\ CONTROL_REG <> STATUS_REG /\
  regs (snd (check_alarm 1 s)) CONTROL_REG = 0x1F /\
  regs (snd (output_32kHz true s)) CONTROL_REG = 0x1F.
Proof.
  cbv zeta.
  assert (Hwf : wf (__init__ (chip_ctrl_status 0x1F 0x83) 0x68))
    by apply init_wf.
  assert (Hne : CONTROL_REG <> STATUS_REG) by discriminate.
  destruct (status_ops_frame _ CONTROL_REG Hwf Hne) as [Hck Hout].
  split; [exact Hwf|]. split; [exact Hne|].
  split; [rewrite Hck | rewrite Hout]; reflexivity.
Defined.

(** ** Alarm 1, in general *)

(** Masking with a power of two isolates one bit. *)
Lemma land_bit (m i : Z) :
  0 <= i -> Z.land m (2 ^ i) = if Z.testbit m i then 2 ^ i else 0.
Proof.
  intros Hi. apply Z.bits_inj'. intros n Hn.
  rewrite Z.land_spec, Z.pow2_bits_eqb by lia.
  destruct (Z.eqb_spec i n) as [<-|Hne].
  - destruct (Z.testbit m i); [rewrite Z.pow2_bits_true by lia | rewrite Z.bits_0];
      reflexivity.
  - rewrite andb_false_r.
    destruct (Z.testbit m i); [rewrite Z.pow2_bits_false by lia | rewrite Z.bits_0];
      reflexivity.
Qed.

(** The four mask bytes of the alarm methods: 0x80 when the corresponding
    bit of [match] is set, 0 otherwise. *)
Lemma alarm_masks (m : Z) :
  Z.shiftl (Z.land m 0x01) 7 = (if Z.testbit m 0 then 0x80 else 0) /\
  Z.shiftl (Z.land m 0x02) 6 = (if Z.testbit m 1 then 0x80 else 0) /\
  Z.shiftl (Z.land m 0x04) 5 = (if Z.testbit m 2 then 0x80 else 0) /\
  Z.shiftl (Z.land m 0x08) 4 = (if Z.testbit m 3 then 0x80 else 0).
Proof.
  pose proof (land_bit m 0 ltac:(lia)) as L0. change (2 ^ 0) with 1 in L0.
  pose proof (land_bit m 1 ltac:(lia)) as L1. change (2 ^ 1) with 2 in L1.
  pose proof (land_bit m 2 ltac:(lia)) as L2. change (2 ^ 2) with 4 in L2.
  pose proof (land_bit m 3 ltac:(lia)) as L3. change (2 ^ 3) with 8 in L3.
  rewrite L0, L1, L2, L3.
  destruct (Z.testbit m 0), (Z.testbit m 1), (Z.testbit m 2), (Z.testbit m 3);
    repeat split; reflexivity.
Qed.

(** A stored alarm byte: its bit 7 is the mask, its bit 6 the weekday flag,
    and the bits below decode to the field. *)
Lemma alarm_byte_decode (v : Z) (mask wk : bool) :
  0 <= v < 80 ->
  let mk := if mask then 0x80 else 0 in
  let dy := if wk then Z.shiftl 1 6 else 0 in
  Z.testbit (byte_of (Z.lor (dectobcd v) mk)) 7 = mask /\
  bcdtodec (Z.land (byte_of (Z.lor (dectobcd v) mk)) 0x7F) = v /\
  Z.testbit (byte_of (Z.lor (Z.lor (dectobcd v) mk) dy)) 7 = mask /\
  (v < 40 ->
   Z.testbit (byte_of (Z.lor (Z.lor (dectobcd v) mk) dy)) 6 = wk /\
   bcdtodec (Z.land (byte_of (Z.lor (Z.lor (dectobcd v) mk) dy)) 0x3F) = v).
Proof.
  intros Hv. cbv zeta.
  pose proof (all_below_spec 80
    (fun v => forallb (fun mask : bool => forallb (fun wk : bool =>
       let mk := if mask then 0x80 else 0 in
       let dy := if wk then Z.shiftl 1 6 else 0 in
       Bool.eqb (Z.testbit (byte_of (Z.lor (dectobcd v) mk)) 7) mask &&
       (bcdtodec (Z.land (byte_of (Z.lor (dectobcd v) mk)) 0x7F) =? v) &&
       Bool.eqb (Z.testbit (byte_of (Z.lor (Z.lor (dectobcd v) mk) dy)) 7) mask &&
       implb (v <? 40)
         (Bool.eqb
            (Z.testbit (byte_of (Z.lor (Z.lor (dectobcd v) mk) dy)) 6) wk &&
          (bcdtodec (Z.land (byte_of (Z.lor (Z.lor (dectobcd v) mk) dy)) 0x3F)
             =? v)))
       [true; false]) [true; false])) as H.
  specialize (H ltac:(vm_compute; reflexivity) v Hv). cbv beta in H.
  rewrite forallb_forall in H.
  specialize (H mask ltac:(destruct mask; simpl; auto)).
  rewrite forallb_forall in H.
  specialize (H wk ltac:(destruct wk; simpl; auto)). cbv zeta in H.
  repeat (apply andb_prop in H; destruct H as [H ?]).
  split; [apply Bool.eqb_prop; assumption|].
  split; [apply Z.eqb_eq; assumption|].
  split; [apply Bool.eqb_prop; assumption|].
  intros Hlt. apply Z.ltb_lt in Hlt.
  match goal with
  | Hi : implb (v <? 40) _ = true |- _ =>
      rewrite Hlt in Hi; simpl in Hi; apply andb_prop in Hi;
      destruct Hi as [Ha Hb]
  end.
  split; [apply Bool.eqb_prop | apply Z.eqb_eq]; assumption.
Qed.

(** Mask-only bytes, for the fields a short tuple leaves out. *)
Lemma alarm_byte_absent (mask wk : bool) :
  let mk := if mask then 0x80 else 0 in
  let dy := if wk then Z.shiftl 1 6 else 0 in
  Z.testbit (byte_of mk) 7 = mask /\
  Z.testbit (byte_of (Z.lor mk dy)) 7 = mask.
Proof.
  destruct mask, wk; split; reflexivity.
Qed.





(** An empty tuple makes [alarm1] raise [IndexError] before any bus
    transaction; a single integer is the tuple of that integer. *)
Theorem alarm1_empty_and_int (s : state) (n match_ : Z)
    (int_en weekday : bool) :
  wf s ->
  fst (alarm1 (Some (TimeTuple [])) match_ int_en weekday s)
    = Raise IndexError /\
  traffic (snd (alarm1 (Some (TimeTuple [])) match_ int_en weekday s))
    = traffic s /\
  regs (snd (alarm1 (Some (TimeTuple [])) match_ int_en weekday s))
    = regs s /\
  alarm1 (Some (TimeInt n)) match_ int_en weekday s
    = alarm1 (Some (TimeTuple [n])) match_ int_en weekday s.
Proof.
  intros Hwf. open_state s Hwf. run. repeat split.
Qed.

Lemma alarm1_empty_and_int_witness :
  let s := __init__ (chip_ctrl_status 0 0) 0x68 in
  wf s /\
  fst (alarm1 (Some (TimeTuple [])) AL1_EVERY_S true false s)
    = Raise IndexError /\
  fst (alarm1 (Some (TimeInt 30)) AL1_MATCH_S true false s)
    = Ok [0x30; 0x80; 0x80; 0x80].
Proof.
  cbv zeta.
  assert (Hwf : wf (__init__ (chip_ctrl_status 0 0) 0x68)) by apply init_wf.
  destruct (alarm1_empty_and_int _ 30 AL1_EVERY_S true false Hwf)
    as (He & _).
  split; [exact Hwf|]. split; [exact He | reflexivity].
Defined.

(** On a status byte, the conditional clear of [check_alarm] amounts to
    clearing the alarm's bit. *)
Lemma status_clear_byte (st alarm : Z) :
  is_byte st -> alarm = 1 \/ alarm = 2 ->
  (if truthy (Z.land st alarm)
   then byte_of (Z.land st (Z.lnot alarm)) else st)
  = Z.clearbit st (alarm - 1).
Proof.
  intros Hst Halarm.
  pose proof (byte_cases
    (fun st => forallb (fun alarm =>
       (if truthy (Z.land st alarm)
        then byte_of (Z.land st (Z.lnot alarm)) else st)
       =? Z.clearbit st (alarm - 1)) [1; 2])) as H.
  specialize (H ltac:(vm_compute; reflexivity) st Hst). cbv beta in H.
  rewrite forallb_forall in H.
  specialize (H alarm ltac:(simpl; destruct Halarm; auto)).
  apply Z.eqb_eq. exact H.
Qed.

(** What [alarm1] leaves behind, besides the alarm bytes. *)
Lemma alarm1_effect (s : state) (v : Z) (rest : list Z) (match_ : Z)
    (int_en weekday : bool) :
  wf s ->
  let ctrl := regs s CONTROL_REG in
  let st := regs s STATUS_REG in
  let r := alarm1 (Some (TimeTuple (v :: rest))) match_ int_en weekday s in
  fst (alarm1 None 0 true false (snd r)) = fst r /\
  regs (snd r) CONTROL_REG =
    byte_of (if int_en then Z.lor (Z.land ctrl 0xFA) 0x05
             else Z.land ctrl 0xFD) /\
  regs (snd r) STATUS_REG =
    (if truthy (Z.land st 1) then byte_of (Z.land st (Z.lnot 1)) else st).
Proof.
  intros Hwf. cbv zeta. open_state s Hwf.
  unfold CONTROL_REG, STATUS_REG in *.
  destruct rest as [|m [|h [|d rest]]]; destruct int_en; run;
    unfold check_alarm; cbv beta iota delta [bind]; run;
    unfold CONTROL_REG, STATUS_REG in *;
    destruct (truthy (Z.land (rg 15) 1)); run; repeat split.
Qed.

(** After [alarm1(time, ...)], [alarm1()] returns the bytes the setting call
    returned: the alarm registers hold what was written. *)
Theorem alarm1_read_back (s : state) (v : Z) (rest : list Z) (match_ : Z)
    (int_en weekday : bool) :
  wf s ->
  let r := alarm1 (Some (TimeTuple (v :: rest))) match_ int_en weekday s in
  exists bytes,
    fst r = Ok bytes /\ List.length bytes = 4%nat /\
    fst (alarm1 None 0 true false (snd r)) = Ok bytes.
Proof.
  intros Hwf. cbv zeta.
  destruct (alarm1_run s v rest match_ int_en weekday Hwf) as (Hr & _).
  destruct (alarm1_effect s v rest match_ int_en weekday Hwf) as (Hback & _).
  eexists. split; [exact Hr|]. split; [reflexivity|].
  rewrite Hback. exact Hr.
Qed.

Lemma alarm1_read_back_witness :
  let s := __init__ (chip_ctrl_status 0 0) 0x68 in
  let r := alarm1 (Some (TimeTuple [45; 30])) AL1_MATCH_MS true false s in
  wf s /\
  exists bytes, fst r = Ok bytes /\
                fst (alarm1 None 0 true false (snd r)) = Ok bytes.
Proof.
  cbv zeta.
  assert (Hwf : wf (__init__ (chip_ctrl_status 0 0) 0x68)) by apply init_wf.
  destruct (alarm1_read_back _ 45 [30] AL1_MATCH_MS true false Hwf)
    as (bytes & Hr & _ & Hb).
  split; [exact Hwf|]. exists bytes. split; [exact Hr | exact Hb].
Defined.

(** Setting alarm 1 also clears its pending flag, bit 0 of the status
    register, leaving the other status bits, and updates the control
    register as [alarm_int] does: with [int_en] bits 0 and 2 are set,
    without it bit 1 is cleared. *)
Theorem alarm1_side_effects (s : state) (v : Z) (rest : list Z) (match_ : Z)
    (int_en weekday : bool) :
  wf s -> is_byte (regs s CONTROL_REG) -> is_byte (regs s STATUS_REG) ->
  let r := alarm1 (Some (TimeTuple (v :: rest))) match_ int_en weekday s in
  regs (snd r) STATUS_REG = Z.clearbit (regs s STATUS_REG) 0 /\
  regs (snd r) CONTROL_REG =
    (if int_en then Z.setbit (Z.setbit (regs s CONTROL_REG) 0) 2
     else Z.clearbit (regs s CONTROL_REG) 1).
Proof.
  intros Hwf Hc Hst. cbv zeta.
  destruct (alarm1_effect s v rest match_ int_en weekday Hwf)
    as (_ & Hctrl & Hstat).
  rewrite Hctrl, Hstat.
  rewrite (status_clear_byte _ 1 Hst (or_introl eq_refl)).
  destruct (control_byte_ops _ Hc) as (_ & Hon & _ & Hoff & _).
  split; [reflexivity|]. destruct int_en; assumption.
Qed.

Lemma alarm1_side_effects_witness :
  let s := __init__ (chip_ctrl_status 0x18 0x83) 0x68 in
  let r := alarm1 (Some (TimeTuple [30])) AL1_MATCH_S true false s in
  wf s /\ is_byte (regs s CONTROL_REG) /\ is_byte (regs s STATUS_REG) /\
  regs (snd r) STATUS_REG = 0x82 /\ regs (snd r) CONTROL_REG = 0x1D.
Proof.
  cbv zeta.
  assert (Hwf : wf (__init__ (chip_ctrl_status 0x18 0x83) 0x68))
    by apply init_wf.
  assert (Hc : is_byte (regs (__init__ (chip_ctrl_status 0x18 0x83) 0x68)
                             CONTROL_REG))
    by (apply is_byte_intro; reflexivity).
  assert (Hst : is_byte (regs (__init__ (chip_ctrl_status 0x18 0x83) 0x68)
                              STATUS_REG))
    by (apply is_byte_intro; reflexivity).
  destruct (alarm1_side_effects _ 30 [] AL1_MATCH_S true false Hwf Hc Hst)
    as [Hs Hk].
  split; [exact Hwf|]. split; [exact Hc|]. split; [exact Hst|].
  split; [rewrite Hs | rewrite Hk]; reflexivity.
Defined.

(** ** Alarm 2 *)

(** [alarm2(time, match, int_en, weekday)] on any tuple, the empty one
    included: the three bytes are written in one block to the alarm-2
    registers before any other bus transaction, are what the call returns
    and what [alarm2()] then reads back. *)
Lemma alarm2_run (s : state) (time : list Z) (match_ : Z)
    (int_en weekday : bool) :
  wf s ->
  let a2m2 := Z.shiftl (Z.land match_ 0x01) 7 in
  let a2m3 := Z.shiftl (Z.land match_ 0x02) 6 in
  let a2m4 := Z.shiftl (Z.land match_ 0x04) 5 in
  let dydt := if weekday then Z.shiftl 1 6 else 0 in
  let bytes :=
    [byte_of (match nth_error time 0 with
              | Some m => Z.lor (dectobcd m) a2m2
              | None => a2m2
              end);
     byte_of (match nth_error time 1 with
              | Some h => Z.lor (dectobcd h) a2m3
              | None => a2m3
              end);
     byte_of (match nth_error time 2 with
              | Some d => Z.lor (Z.lor (dectobcd d) a2m4) dydt
              | None => Z.lor a2m4 dydt
              end)] in
  let ctrl := regs s CONTROL_REG in
  let st := regs s STATUS_REG in
  let r := alarm2 (Some (TimeTuple time)) match_ int_en weekday s in
  fst r = Ok bytes /\
  (exists tail,
     traffic (snd r) = traffic s ++ BusWrite (addr s) ALARM2_REG bytes :: tail) /\
  fst (alarm2 None 0 true false (snd r)) = Ok bytes /\
  regs (snd r) CONTROL_REG =
    byte_of (if int_en then Z.lor (Z.land ctrl 0xF9) 0x06
             else Z.land ctrl 0xFB) /\
  regs (snd r) STATUS_REG =
    (if truthy (Z.land st 2) then byte_of (Z.land st (Z.lnot 2)) else st).
Proof.
  intros Hwf. cbv zeta. open_state s Hwf.
  unfold CONTROL_REG, STATUS_REG in *.
  destruct time as [|m [|h [|d rest]]]; destruct int_en; run;
    unfold check_alarm; cbv beta iota delta [bind]; run;
    unfold CONTROL_REG, STATUS_REG in *;
    destruct (truthy (Z.land (rg 15) 2)); run; rewrite <- !app_assoc;
    (split; [reflexivity|]); (split; [eexists; reflexivity|]);
    repeat split.
Qed.

(** Bit 7 of each byte [alarm2] writes is the bit of [match] with the
    byte's index (0 for minutes, 1 for hours, 2 for day/date), for every
    [match] value and every tuple of fields below 80; the empty tuple is
    accepted and gives the three mask bytes alone. *)
Theorem alarm2_mask_mapping (s : state) (time : list Z) (match_ : Z)
    (int_en weekday : bool) :
  wf s -> Forall (fun x => 0 <= x < 80) time ->
  let r := alarm2 (Some (TimeTuple time)) match_ int_en weekday s in
  exists b0 b1 b2 tail,
    fst r = Ok [b0; b1; b2] /\
    traffic (snd r) =
      traffic s ++ BusWrite (addr s) ALARM2_REG [b0; b1; b2] :: tail /\
    Z.testbit b0 7 = Z.testbit match_ 0 /\
    Z.testbit b1 7 = Z.testbit match_ 1 /\
    Z.testbit b2 7 = Z.testbit match_ 2.
Proof.
  intros Hwf Hrange. cbv zeta.
  destruct (alarm2_run s time match_ int_en weekday Hwf)
    as (Hr & (tail & Ht) & _).
  destruct (alarm_masks match_) as (M1 & M2 & M3 & _).
  rewrite M1, M2, M3 in Hr, Ht.
  do 3 eexists. exists tail. split; [exact Hr|]. split; [exact Ht|].
  assert (Hnth : forall i m, nth_error time i = Some m -> 0 <= m < 80).
  { intros i m Hi. apply nth_error_In in Hi.
    rewrite Forall_forall in Hrange. apply Hrange. exact Hi. }
  split; [|split].
  - destruct (nth_error time 0) as [m|] eqn:E.
    + apply (alarm_byte_decode m _ false (Hnth 0%nat m E)).
    + apply (alarm_byte_absent _ false).
  - destruct (nth_error time 1) as [m|] eqn:E.
    + apply (alarm_byte_decode m _ false (Hnth 1%nat m E)).
    + apply (alarm_byte_absent _ false).
  - destruct (nth_error time 2) as [m|] eqn:E.
    + apply (alarm_byte_decode m _ weekday (Hnth 2%nat m E)).
    + apply (alarm_byte_absent _ weekday).
Qed.

Lemma alarm2_mask_mapping_witness :
  let s := __init__ (chip_ctrl_status 0 0) 0x68 in
  wf s /\ Forall (fun x => 0 <= x < 80) [] /\
  fst (alarm2 (Some (TimeTuple [])) AL2_EVERY_M true false s)
    = Ok [0x80; 0x80; 0x80] /\
  fst (alarm2 (Some (TimeTuple [30; 7])) AL2_MATCH_HM true false s)
    = Ok [0x30; 0x07; 0x80] /\
  exists b0 b1 b2 tail,
    fst (alarm2 (Some (TimeTuple [])) AL2_EVERY_M true false s)
      = Ok [b0; b1; b2] /\
    traffic (snd (alarm2 (Some (TimeTuple [])) AL2_EVERY_M true false s))
      = BusWrite 0x68 ALARM2_REG [b0; b1; b2] :: tail /\
    Z.testbit b0 7 = true.
Proof.
  cbv zeta.
  assert (Hwf : wf (__init__ (chip_ctrl_status 0 0) 0x68)) by apply init_wf.
  assert (Hrange : Forall (fun x => 0 <= x < 80) []) by constructor.
  destruct (alarm2_mask_mapping _ [] AL2_EVERY_M true false Hwf Hrange)
    as (b0 & b1 & b2 & tail & Hr & Ht & H0 & _).
  split; [exact Hwf|]. split; [exact Hrange|].
  split; [reflexivity|]. split; [reflexivity|].
  exists b0, b1, b2, tail. split; [exact Hr|]. split; [exact Ht | exact H0].
Defined.



(** After [alarm2(time, ...)], [alarm2()] returns the bytes the setting call
    returned; the call also clears alarm 2's pending flag, bit 1 of the
    status register, and updates the control register as [alarm_int] does:
    with [int_en] bits 1 and 2 are set, without it bit 2 is cleared. *)
Theorem alarm2_read_back_and_effects (s : state) (time : list Z) (match_ : Z)
    (int_en weekday : bool) :
  wf s -> is_byte (regs s CONTROL_REG) -> is_byte (regs s STATUS_REG) ->
  let r := alarm2 (Some (TimeTuple time)) match_ int_en weekday s in
  (exists bytes, fst r = Ok bytes /\ List.length bytes = 3%nat /\
                 fst (alarm2 None 0 true false (snd r)) = Ok bytes) /\
  regs (snd r) STATUS_REG = Z.clearbit (regs s STATUS_REG) 1 /\
  regs (snd r) CONTROL_REG =
    (if int_en then Z.setbit (Z.setbit (regs s CONTROL_REG) 1) 2
     else Z.clearbit (regs s CONTROL_REG) 2).
Proof.
  intros Hwf Hc Hst. cbv zeta.
  destruct (alarm2_run s time match_ int_en weekday Hwf)
    as (Hr & _ & Hback & Hctrl & Hstat).
  split; [eexists; split; [exact Hr | split; [reflexivity | exact Hback]]|].
  rewrite Hctrl, Hstat.
  rewrite (status_clear_byte _ 2 Hst (or_intror eq_refl)).
  destruct (control_byte_ops _ Hc) as (_ & _ & Hon & _ & Hoff).
  split; [reflexivity|]. destruct int_en; assumption.
Qed.

Lemma alarm2_read_back_and_effects_witness :
  let s := __init__ (chip_ctrl_status 0x18 0x83) 0x68 in
  let r := alarm2 (Some (TimeTuple [30])) AL2_MATCH_M false false s in
  wf s /\ is_byte (regs s CONTROL_REG) /\ is_byte (regs s STATUS_REG) /\
  regs (snd r) STATUS_REG = 0x81 /\ regs (snd r) CONTROL_REG = 0x18 /\
  fst (alarm2 None 0 true false (snd r)) = Ok [0x30; 0x80; 0x80].
Proof.
  cbv zeta.
  assert (Hwf : wf (__init__ (chip_ctrl_status 0x18 0x83) 0x68))
    by apply init_wf.
  assert (Hc : is_byte (regs (__init__ (chip_ctrl_status 0x18 0x83) 0x68)
                             CONTROL_REG))
    by (apply is_byte_intro; reflexivity).
  assert (Hst : is_byte (regs (__init__ (chip_ctrl_status 0x18 0x83) 0x68)
                              STATUS_REG))
    by (apply is_byte_intro; reflexivity).
  destruct (alarm2_read_back_and_effects _ [30] AL2_MATCH_M false false
              Hwf Hc Hst) as (_ & Hs & Hk).
  split; [exact Hwf|]. split; [exact Hc|]. split; [exact Hst|].
  split; [rewrite Hs; reflexivity|]. split; [rewrite Hk|]; reflexivity.
Defined.

(** ** How many fields [datetime(dt)] needs *)

(** [datetime(dt)] returns [True] exactly when the tuple has at least the
    five fields year, month, day, hour and minute; with fewer it raises
    [IndexError], issues no bus transaction and changes no register. *)
Theorem datetime_arity (s : state) (dt : list Z) :
  wf s ->
  let r := datetime (Some dt) s in
  if (5 <=? List.length dt)%nat
  then fst r = Ok (VBool true)
  else fst r = Raise IndexError /\
       traffic (snd r) = traffic s /\ regs (snd r) = regs s.
Proof.
  intros Hwf. cbv zeta.
  destruct (Nat.leb_spec 5 (List.length dt)) as [Hlong|Hshort].
  - destruct dt as [|y [|mo [|d [|h [|mi rest]]]]]; simpl in Hlong; try lia.
    destruct (year_total y) as [yy Hyy].
    rewrite (datetime_set_run s y mo d h mi rest yy Hwf Hyy). reflexivity.
  - apply datetime_short_tuple; assumption.
Qed.

Lemma datetime_arity_witness :
  let s := __init__ (chip_ctrl_status 0 0x80) 0x68 in
  wf s /\
  fst (datetime (Some [2023; 6; 15; 10]) s) = Raise IndexError /\
  traffic (snd (datetime (Some [2023; 6; 15; 10]) s)) = [] /\
  fst (datetime (Some [2023; 6; 15; 10; 30]) s) = Ok (VBool true).
Proof.
  cbv zeta.
  assert (Hwf : wf (__init__ (chip_ctrl_status 0 0x80) 0x68)) by apply init_wf.
  pose proof (datetime_arity _ [2023; 6; 15; 10] Hwf) as H4.
  pose proof (datetime_arity _ [2023; 6; 15; 10; 30] Hwf) as H5.
  cbv zeta in H4, H5. cbn [List.length Nat.leb] in H4, H5.
  destruct H4 as (He & Ht & _).
  split; [exact Hwf|]. split; [exact He|]. split; [exact Ht | exact H5].
Defined.
